(** * The PM2.5 forecast backend (forecast_backend.py)

    A shallow embedding of the forecast pipeline: feature synthesis
    ([generate_forecast_features]), category to AQI mapping
    ([map_category_to_aqi]) and the assembly loop of the [/forecast] route
    ([forecast]).

    Numbers are IEEE binary64 values (the kernel's primitive floats) and
    Python ints ([Z]).  The ambient effects of the route are made explicit
    in a [World]: the wall clock read by [datetime.now()] and NumPy's global
    random generator.  [np.sin], [np.cos] and the loaded classifier are
    parameters of the development. *)

From Stdlib Require Import ZArith List Lia Bool String Ascii Floats Uint63.
From stdpp Require Import base option list gmap strings.
Import ListNotations.

Set Warnings "-inexact-float,-register-all".

Local Open Scope string_scope.
Local Open Scope list_scope.
Local Open Scope Z_scope.

(** ** Python values *)

(** A Python number: an [int] or a double. *)
Inductive pynum : Type :=
| PyInt (z : Z)
| PyFloat (f : float).

(** The values that reach [jsonify]; a dict keeps its keys in insertion
    order. *)
Inductive pyval : Type :=
| PNone
| PBool (b : bool)
| PNum (n : pynum)
| PStr (s : string)
| PList (l : list pyval)
| PDict (d : list (string * pyval)).

(** [d[key]] on a dict literal (first binding of the key). *)
Fixpoint dict_get (d : list (string * pyval)) (key : string) : option pyval :=
  match d with
  | [] => None
  | (k, v) :: rest => if String.eqb k key then Some v else dict_get rest key
  end.

(** [v[key]] for any value: only dicts have keys. *)
Definition py_get (v : pyval) (key : string) : option pyval :=
  match v with
  | PDict d => dict_get d key
  | _ => None
  end.

(** [v == 'literal']: only the string itself compares equal to a string. *)
Definition py_eq_str (v : pyval) (s : string) : bool :=
  match v with
  | PStr x => String.eqb x s
  | _ => false
  end.

(** [float(z)] for a Python int (exact below 2^53). *)
Definition Z2float (z : Z) : float :=
  if z <? 0 then PrimFloat.opp (PrimFloat.of_uint63 (Uint63.of_Z (- z)))
  else PrimFloat.of_uint63 (Uint63.of_Z z).

Definition to_float (n : pynum) : float :=
  match n with
  | PyInt z => Z2float z
  | PyFloat f => f
  end.

(** [a < b] on numbers; the int operands of this program are the literal
    bounds 0, -20, 50 and 100. *)
Definition py_lt (a b : pynum) : bool :=
  match a, b with
  | PyInt x, PyInt y => x <? y
  | _, _ => PrimFloat.ltb (to_float a) (to_float b)
  end.

(** The builtins [max(a, b)] and [min(a, b)]: the first argument is kept
    unless the second one is strictly better, so a NaN in second position
    loses. *)
Definition py_max (a b : pynum) : pynum := if py_lt a b then b else a.
Definition py_min (a b : pynum) : pynum := if py_lt b a then b else a.

(** ** NumPy *)

Module np.

(** [np.pi], the double nearest to pi. *)
Definition pi : float := 0x1.921fb54442d18p+1%float.

(** [np.rint]: round to the nearest integer, ties to even.  Doubles of
    magnitude 2^52 and more are integers already. *)
Definition rint (x : float) : float :=
  let a := PrimFloat.abs x in
  if PrimFloat.ltb a 0x1p+52%float then
    let r := ((a + 0x1p+52) - 0x1p+52)%float in
    if PrimFloat.ltb x 0%float then PrimFloat.opp r else r
  else x.

(** [np.round(x, 1)], which is what [round(x, 1)] runs on a [np.float64]:
    scale by ten, [rint], scale back. *)
Definition round1 (x : float) : float := (rint (x * 10) / 10)%float.

(** [np.array([features])]: the single row, every entry as a double. *)
Definition array (features : list pynum) : list float := map to_float features.

End np.

(** [round(x, 1)]: an int is returned as it is. *)
Definition py_round1 (x : pynum) : pynum :=
  match x with
  | PyInt z => PyInt z
  | PyFloat f => PyFloat (np.round1 f)
  end.

(** ** datetime *)

Module datetime.

(** A naive [datetime]: microseconds since 0001-01-01T00:00:00 (the instant
    of proleptic Gregorian ordinal 1).  The supported years 1..9999 are far
    from any reading of a wall clock, so the [OverflowError] of arithmetic
    at the ends of the range is not modelled. *)
Definition t : Type := Z.

Definition us_per_hour : Z := 3600 * 1000000.
Definition us_per_day : Z := 24 * us_per_hour.

(** [timedelta(hours=h)], in microseconds. *)
Definition timedelta_hours (h : Z) : Z := h * us_per_hour.

Definition toordinal (d : t) : Z := d / us_per_day + 1.
Definition hour (d : t) : Z := (d mod us_per_day) / us_per_hour.
Definition minute (d : t) : Z := (d mod us_per_hour) / 60000000.
Definition second (d : t) : Z := (d mod 60000000) / 1000000.
Definition microsecond (d : t) : Z := d mod 1000000.

(** [date.weekday()]: Monday is 0. *)
Definition weekday (d : t) : Z := (toordinal d + 6) mod 7.

Definition _DAYS_IN_MONTH : list Z :=
  [-1; 31; 28; 31; 30; 31; 30; 31; 31; 30; 31; 30; 31].
Definition _DAYS_BEFORE_MONTH : list Z :=
  [-1; 0; 31; 59; 90; 120; 151; 181; 212; 243; 273; 304; 334].

Definition b2z (b : bool) : Z := if b then 1 else 0.

(** [_ord2ymd]: ordinal to (year, month, day), as in the standard library's
    datetime.py. *)
Definition _ord2ymd (ordinal : Z) : Z * Z * Z :=
  let n := ordinal - 1 in
  let n400 := n / 146097 in
  let n := n mod 146097 in
  let year := n400 * 400 + 1 in
  let n100 := n / 36524 in
  let n := n mod 36524 in
  let n4 := n / 1461 in
  let n := n mod 1461 in
  let n1 := n / 365 in
  let n := n mod 365 in
  let year := year + (n100 * 100 + n4 * 4 + n1) in
  if (n1 =? 4) || (n100 =? 4) then (year - 1, 12, 31)
  else
    let leapyear := (n1 =? 3) && (negb (n4 =? 24) || (n100 =? 3)) in
    let month := Z.shiftr (n + 50) 5 in
    let preceding :=
      nth (Z.to_nat month) _DAYS_BEFORE_MONTH 0 + b2z ((2 <? month) && leapyear) in
    if n <? preceding then
      let month := month - 1 in
      let preceding :=
        preceding - (nth (Z.to_nat month) _DAYS_IN_MONTH 0 + b2z ((month =? 2) && leapyear)) in
      (year, month, n - preceding + 1)
    else (year, month, n - preceding + 1).

Definition year (d : t) : Z := fst (fst (_ord2ymd (toordinal d))).
Definition month (d : t) : Z := snd (fst (_ord2ymd (toordinal d))).
Definition day (d : t) : Z := snd (_ord2ymd (toordinal d)).

(** Decimal rendering on [width] digits with leading zeros (["%0Nd"]). *)
Fixpoint zero_pad (width : nat) (n : Z) : string :=
  match width with
  | O => ""
  | S w => zero_pad w (n / 10) +:+ String (ascii_of_nat (48 + Z.to_nat (n mod 10))) ""
  end.

(** [isoformat()]: the fraction is printed only when it is not zero. *)
Definition isoformat (d : t) : string :=
  zero_pad 4 (year d) +:+ "-" +:+ zero_pad 2 (month d) +:+ "-" +:+ zero_pad 2 (day d)
  +:+ "T" +:+ zero_pad 2 (hour d) +:+ ":" +:+ zero_pad 2 (minute d)
  +:+ ":" +:+ zero_pad 2 (second d)
  +:+ (if microsecond d =? 0 then "" else "." +:+ zero_pad 6 (microsecond d)).

Definition _DAYNAMES : list string :=
  ["Mon"; "Tue"; "Wed"; "Thu"; "Fri"; "Sat"; "Sun"].
Definition _MONTHNAMES : list string :=
  [""; "Jan"; "Feb"; "Mar"; "Apr"; "May"; "Jun"; "Jul"; "Aug"; "Sep"; "Oct"; "Nov"; "Dec"].

(** [strftime('%a')] and [strftime('%b %d')] in the C locale. *)
Definition strftime_a (d : t) : string := nth (Z.to_nat (weekday d)) _DAYNAMES "".
Definition strftime_b_d (d : t) : string :=
  nth (Z.to_nat (month d)) _MONTHNAMES "" +:+ " " +:+ zero_pad 2 (day d).

Definition _is_leap (y : Z) : bool :=
  (y mod 4 =? 0) && (negb (y mod 100 =? 0) || (y mod 400 =? 0)).

(** [_ymd2ord]: (year, month, day) to ordinal. *)
Definition _ymd2ord (y m d : Z) : Z :=
  let y1 := y - 1 in
  (y1 * 365 + y1 / 4 - y1 / 100 + y1 / 400)
  + (nth (Z.to_nat m) _DAYS_BEFORE_MONTH 0 + b2z ((2 <? m) && _is_leap y))
  + d.

(** The constructor [datetime(y, m, d, hh, mm, ss, us)]. *)
Definition make (y m d hh mm ss us : Z) : t :=
  (_ymd2ord y m d - 1) * us_per_day + hh * us_per_hour + mm * 60000000 + ss * 1000000 + us.

End datetime.

(** ** Exceptions and the ambient state *)

(** A raised exception, by its message ([str(e)]). *)
Inductive exn : Type :=
| Exception (msg : string).

Definition str (e : exn) : string := match e with Exception msg => msg end.

(** What the route reads besides its request: the wall clock and NumPy's
    global generator.  [wall_clock k] is what the [k]-th call of
    [datetime.now()] returns and [entropy k] what the generator yields for
    the [k]-th draw; the two counters record the calls made so far. *)
Record World : Type := mkWorld {
  wall_clock : nat -> datetime.t;
  clock_reads : nat;
  entropy : nat -> Z;
  rng_draws : nat
}.

(** Computations that read and advance the world and may raise. *)
Definition M (A : Type) : Type := World -> (exn + A) * World.

Definition ret {A : Type} (a : A) : M A := fun w => (inr a, w).

Definition raise {A : Type} (e : exn) : M A := fun w => (inl e, w).

Definition bind {A B : Type} (m : M A) (k : A -> M B) : M B :=
  fun w =>
    match m w with
    | (inl e, w') => (inl e, w')
    | (inr a, w') => k a w'
    end.

(** The outcome of a call that touches no state. *)
Definition lift {A : Type} (r : exn + A) : M A := fun w => (r, w).

(** [try: body / except Exception as e: handler e]. *)
Definition try_except {A : Type} (body : M A) (handler : exn -> M A) : M A :=
  fun w =>
    match body w with
    | (inl e, w') => handler e w'
    | (inr a, w') => (inr a, w')
    end.

Notation "x <- m ;; k" := (bind m (fun x => k))
  (at level 100, m at next level, right associativity).

(** [datetime.now()]. *)
Definition datetime_now : M datetime.t :=
  fun w =>
    (inr (wall_clock w (clock_reads w)),
     mkWorld (wall_clock w) (S (clock_reads w)) (entropy w) (rng_draws w)).

(** [np.random.randint(low, high)]: an integer of the half-open interval
    [low, high), or [ValueError] when the interval is empty. *)
Definition randint (low high : Z) : M Z :=
  fun w =>
    if high <=? low then (inl (Exception "low >= high"), w)
    else
      (inr (low + entropy w (rng_draws w) mod (high - low)),
       mkWorld (wall_clock w) (clock_reads w) (entropy w) (S (rng_draws w))).

(** [range(start, stop, step)] for a positive step. *)
Definition py_range (start stop step : Z) : list Z :=
  map (fun k => start + Z.of_nat k * step)
      (seq 0 (Z.to_nat ((stop - start + step - 1) / step))).

(** ** The backend *)

(** Category to AQI mapping (100-1000 range). *)
Definition CATEGORY_TO_AQI : gmap Z (Z * Z) :=
  list_to_map
    [ (0, (100, 200));
      (1, (200, 350));
      (2, (350, 500));
      (3, (500, 700));
      (4, (700, 900));
      (5, (900, 1000)) ].

(** Map prediction category to AQI value in 100-1000 range. *)
Definition map_category_to_aqi (category : Z) : M Z :=
  let '(min_aqi, max_aqi) := default (100, 200) (CATEGORY_TO_AQI !! category) in
  aqi <- randint min_aqi (max_aqi + 1) ;;
  ret aqi.

(** [l[i]] on a list. *)
Definition py_index {A : Type} (l : list A) (i : nat) : exn + A :=
  match l !! i with
  | Some x => inr x
  | None => inl (Exception "list index out of range")
  end.

(** The loaded classifier as the route uses it:
    [int(model.predict(features_array)[0])] on a one-row array, a pure call
    that gives the category or raises. *)
Definition Classifier : Type := list float -> exn + Z.

(** The JSON body of a request, a JSON object.  The four readings are
    numbers, taken at their double value (non-numeric readings are outside
    this model); every field may be absent; [type] may hold any JSON
    value. *)
Record Request : Type := mkRequest {
  req_pm25 : option float;
  req_temperature : option float;
  req_humidity : option float;
  req_wind_speed : option float;
  req_type : option pyval
}.

Section Backend.

(** [np.sin] and [np.cos] on doubles, as the platform's libm computes
    them. *)
Variable np_sin np_cos : float -> float.

(** Daily cycle (sine wave for natural variation). *)
Definition hour_factor (hours_ahead : Z) : float :=
  (np_sin (Z2float hours_ahead / 12 * np.pi) * 0.15)%float.

(** Temperature follows daily cycle, +/- 3 degrees. *)
Definition temp_cycle (hours_ahead : Z) : float :=
  (np_cos (Z2float hours_ahead / 12 * np.pi) * 3)%float.

(** Wind speed has slight variation. *)
Definition wind_cycle (base_wind : float) (hours_ahead : Z) : float :=
  (np_sin (Z2float hours_ahead / 8 * np.pi) * base_wind * 0.2)%float.

(** Generate features for future predictions. *)
Definition generate_forecast_features
    (base_pm25 base_temp base_humidity base_wind : float) (hours_ahead : Z)
    : list pynum :=
  let hour_factor := hour_factor hours_ahead in
  let pm25_variation := (hour_factor * base_pm25 * 0.2)%float in
  let pm25 := (base_pm25 * (1 + hour_factor) + pm25_variation)%float in
  let temp_cycle := temp_cycle hours_ahead in
  let temp := (base_temp + temp_cycle)%float in
  let humidity := (base_humidity - (temp_cycle * 2))%float in
  let wind_cycle := wind_cycle base_wind hours_ahead in
  let wind := (base_wind + wind_cycle)%float in
  [ py_max (PyInt 0) (PyFloat pm25);
    py_max (PyInt (-20)) (py_min (PyInt 50) (PyFloat temp));
    py_max (PyInt 0) (py_min (PyInt 100) (PyFloat humidity));
    py_max (PyFloat 0.1) (PyFloat wind) ].

(** The horizon and the step chosen by the [if]/[elif]/[else] on
    [forecast_type]: [(hours_to_predict, interval_hours)]. *)
Definition prediction_window (forecast_type : pyval) : Z * Z :=
  if py_eq_str forecast_type "hourly" then (48, 1)
  else if py_eq_str forecast_type "daily" then (7 * 24, 24)
  else (14 * 24, 24).

(** The body of the loop for the offset [i]: one forecast point. *)
Definition forecast_point (predict : Classifier)
    (current_pm25 current_temp current_humidity current_wind : float)
    (interval_hours i : Z) : M pyval :=
  let features :=
    generate_forecast_features current_pm25 current_temp current_humidity current_wind i in
  category <- lift (predict (np.array features)) ;;
  aqi <- map_category_to_aqi category ;;
  now <- datetime_now ;;
  let forecast_time := now + datetime.timedelta_hours i in
  pm25 <- lift (py_index features 0) ;;
  ret (PDict
    [ ("time", PStr (datetime.isoformat forecast_time));
      ("aqi", PNum (PyInt aqi));
      ("hour", if interval_hours =? 1 then PNum (PyInt (datetime.hour forecast_time)) else PNone);
      ("day", if interval_hours =? 24 then PStr (datetime.strftime_a forecast_time) else PNone);
      ("date", if interval_hours =? 24 then PStr (datetime.strftime_b_d forecast_time) else PNone);
      ("category", PNum (PyInt category));
      ("pm25", PNum (py_round1 pm25)) ]).

(** [for i in offsets: ... forecasts.append(forecast_point)]. *)
Fixpoint forecast_loop (predict : Classifier)
    (current_pm25 current_temp current_humidity current_wind : float)
    (interval_hours : Z) (offsets : list Z) (forecasts : list pyval)
    : M (list pyval) :=
  match offsets with
  | [] => ret forecasts
  | i :: rest =>
      point <- forecast_point predict current_pm25 current_temp current_humidity
                 current_wind interval_hours i ;;
      forecast_loop predict current_pm25 current_temp current_humidity current_wind
        interval_hours rest (forecasts ++ [point])
  end.

(** The [/forecast] route: the JSON body and the HTTP status of the
    response.  [model] is the module's global, [None] when loading failed. *)
Definition forecast (model : option Classifier) (data : Request) : M (pyval * Z) :=
  match model with
  | None => ret (PDict [("error", PStr "Model not loaded")], 500)
  | Some predict =>
      try_except
        (let current_pm25 := default 150%float (req_pm25 data) in
         let current_temp := default 20%float (req_temperature data) in
         let current_humidity := default 60%float (req_humidity data) in
         let current_wind := default 5%float (req_wind_speed data) in
         let forecast_type := default (PStr "hourly") (req_type data) in
         let '(hours_to_predict, interval_hours) := prediction_window forecast_type in
         forecasts <- forecast_loop predict current_pm25 current_temp current_humidity
                        current_wind interval_hours
                        (py_range 0 hours_to_predict interval_hours) [] ;;
         ret (PDict
           [ ("status", PStr "success");
             ("forecast_type", forecast_type);
             ("forecasts", PList forecasts);
             ("aqi_range", PList [PNum (PyInt 100); PNum (PyInt 1000)]);
             ("model_used", PStr "xgboost_pm25_classifier") ], 200))
        (fun e => ret (PDict [("error", PStr (str e))], 400))
  end.

End Backend.

(** ** A runnable stand-in for libm *)

(** Taylor polynomials around 0 after reduction to one period: an
    approximation of [sin] and [cos] that runs inside Rocq, exact at 0.
    They instantiate [np_sin] and [np_cos] in the examples. *)
Definition reduce_period (x : float) : float :=
  let two_pi := (2 * np.pi)%float in
  (x - two_pi * np.rint (x / two_pi))%float.

Definition taylor_sin (x : float) : float :=
  let y := reduce_period x in
  let y2 := (y * y)%float in
  (y * (1 - y2 / 6 * (1 - y2 / 20 * (1 - y2 / 42 * (1 - y2 / 72 * (1 - y2 / 110
     * (1 - y2 / 156 * (1 - y2 / 210 * (1 - y2 / 272 * (1 - y2 / 342))))))))))%float.

Definition taylor_cos (x : float) : float :=
  let y := reduce_period x in
  let y2 := (y * y)%float in
  (1 - y2 / 2 * (1 - y2 / 12 * (1 - y2 / 30 * (1 - y2 / 56 * (1 - y2 / 90
     * (1 - y2 / 132 * (1 - y2 / 182 * (1 - y2 / 240 * (1 - y2 / 306)))))))))%float.

(** ** The pieces of a request *)

Definition current_pm25 (data : Request) : float := default 150%float (req_pm25 data).
Definition current_temp (data : Request) : float := default 20%float (req_temperature data).
Definition current_humidity (data : Request) : float := default 60%float (req_humidity data).
Definition current_wind (data : Request) : float := default 5%float (req_wind_speed data).
Definition forecast_type (data : Request) : pyval := default (PStr "hourly") (req_type data).
Definition hours_to_predict (data : Request) : Z := fst (prediction_window (forecast_type data)).
Definition interval_hours (data : Request) : Z := snd (prediction_window (forecast_type data)).

(** The offsets the loop of a request runs over. *)
Definition offsets_of (data : Request) : list Z :=
  py_range 0 (hours_to_predict data) (interval_hours data).

(** The world after one iteration of the loop: one draw and one reading of
    the clock. *)
Definition advance (w : World) : World :=
  mkWorld (wall_clock w) (S (clock_reads w)) (entropy w) (S (rng_draws w)).

Fixpoint advance_n (n : nat) (w : World) : World :=
  match n with
  | O => w
  | S m => advance_n m (advance w)
  end.

(** The AQI that [map_category_to_aqi] draws in the world [w]. *)
Definition aqi_drawn (category : Z) (w : World) : Z :=
  let '(min_aqi, max_aqi) := default (100, 200) (CATEGORY_TO_AQI !! category) in
  min_aqi + entropy w (rng_draws w) mod (max_aqi + 1 - min_aqi).

(** The clock reading of the [k]-th iteration of a loop started in [w]. *)
Definition reading (w : World) (k : nat) : datetime.t :=
  wall_clock w (k + clock_reads w).

(** The forecast point built for the offset [i] from a category, an AQI, a
    clock reading and the projected pm25. *)
Definition point_of (interval_hours i category aqi : Z) (now : datetime.t)
    (pm25 : pynum) : pyval :=
  let forecast_time := now + datetime.timedelta_hours i in
  PDict
    [ ("time", PStr (datetime.isoformat forecast_time));
      ("aqi", PNum (PyInt aqi));
      ("hour", if interval_hours =? 1 then PNum (PyInt (datetime.hour forecast_time)) else PNone);
      ("day", if interval_hours =? 24 then PStr (datetime.strftime_a forecast_time) else PNone);
      ("date", if interval_hours =? 24 then PStr (datetime.strftime_b_d forecast_time) else PNone);
      ("category", PNum (PyInt category));
      ("pm25", PNum (py_round1 pm25)) ].

Section Run.

Variable np_sin np_cos : float -> float.

(** The features of a request at the offset [i], and the first of them. *)
Definition features_of (data : Request) (i : Z) : list pynum :=
  generate_forecast_features np_sin np_cos (current_pm25 data) (current_temp data)
    (current_humidity data) (current_wind data) i.

Definition pm25_feature (data : Request) (i : Z) : pynum :=
  let hour_factor := hour_factor np_sin i in
  py_max (PyInt 0)
    (PyFloat (current_pm25 data * (1 + hour_factor)
              + hour_factor * current_pm25 data * 0.2)%float).

(** The classifier answers on every offset of the request, with the
    category [category_of i] at the offset [i]. *)
Definition answers (predict : Classifier) (data : Request) (category_of : Z -> Z) : Prop :=
  forall i, In i (offsets_of data) ->
    predict (np.array (features_of data i)) = inr (category_of i).

(** The points a loop over [offsets] builds when it starts in [w] and the
    classifier answers [category_of]. *)
Fixpoint expected_points (data : Request) (category_of : Z -> Z)
    (offsets : list Z) (w : World) : list pyval :=
  match offsets with
  | [] => []
  | i :: rest =>
      point_of (interval_hours data) i (category_of i)
        (aqi_drawn (category_of i) w) (reading w 0) (pm25_feature data i)
      :: expected_points data category_of rest (advance w)
  end.

(** The body of a successful response. *)
Definition success_body (data : Request) (forecasts : list pyval) : pyval :=
  PDict
    [ ("status", PStr "success");
      ("forecast_type", forecast_type data);
      ("forecasts", PList forecasts);
      ("aqi_range", PList [PNum (PyInt 100); PNum (PyInt 1000)]);
      ("model_used", PStr "xgboost_pm25_classifier") ].

End Run.

(** ** The specification's reading of the components *)

Module Spec.

(** The base environmental snapshot. *)
Record EnvironmentSnapshot : Type := mkSnapshot {
  pm25 : float;
  temperature : float;
  humidity : float;
  windSpeed : float
}.

(** Clamping: a value is kept when it lies strictly inside the bound and
    replaced by the bound otherwise. *)
Definition at_least (lo x : float) : float := if PrimFloat.ltb lo x then x else lo.
Definition at_most (hi x : float) : float := if PrimFloat.ltb x hi then x else hi.
Definition within (lo hi x : float) : float := at_least lo (at_most hi x).

(** Section 4.1: the projected conditions at [offsetHours], as the ordered
    vector (pm25, temperature, humidity, windSpeed). *)
Definition synthesize (sin cos : float -> float) (base : EnvironmentSnapshot)
    (offsetHours : Z) : list float :=
  let hourFactor := (sin (Z2float offsetHours / 12 * np.pi) * 0.15)%float in
  let tempCycle := (cos (Z2float offsetHours / 12 * np.pi) * 3)%float in
  let windCycle := (sin (Z2float offsetHours / 8 * np.pi) * windSpeed base * 0.2)%float in
  [ at_least 0 (pm25 base * (1 + hourFactor) + hourFactor * pm25 base * 0.2)%float;
    within (-20) 50 (temperature base + tempCycle)%float;
    within 0 100 (humidity base - tempCycle * 2)%float;
    at_least 0.1 (windSpeed base + windCycle)%float ].

(** Section 4.3: the lookup table with its fallback. *)
Definition IndexRange (category : Z) : Z * Z :=
  match category with
  | 0 => (100, 200)
  | 1 => (200, 350)
  | 2 => (350, 500)
  | 3 => (500, 700)
  | 4 => (700, 900)
  | 5 => (900, 1000)
  | _ => (100, 200)
  end.

End Spec.

(** ** Statements of the specification that are tested against the code *)

(** The time stamped on the [k]-th point of a request served in [w]: the
    clock reading of that iteration plus the offset. *)
Definition forecast_time_at (data : Request) (w : World) (k : nat) : datetime.t :=
  reading w k + datetime.timedelta_hours (Z.of_nat k * interval_hours data).

(** Section 4.4, step 4: every point is stamped from one reading of the
    clock, taken when the assembly starts. *)
Definition single_reading_timestamps : Prop :=
  forall (np_sin np_cos : float -> float) (predict : Classifier) (data : Request)
         (w w' : World) (forecasts : list pyval),
    forecast np_sin np_cos (Some predict) data w
      = (inr (success_body data forecasts, 200), w') ->
    forall (k : nat) (p : pyval), forecasts !! k = Some p ->
      py_get p "time"
      = Some (PStr (datetime.isoformat
                      (reading w 0
                       + datetime.timedelta_hours (Z.of_nat k * interval_hours data)))).

(** Section 6: a model identifier ["forecast_classifier_v1"] in every
    successful response. *)
Definition model_used_is_forecast_classifier_v1 : Prop :=
  forall (np_sin np_cos : float -> float) (model : option Classifier) (data : Request)
         (w w' : World) (body : pyval),
    forecast np_sin np_cos model data w = (inr (body, 200), w') ->
    py_get body "model_used" = Some (PStr "forecast_classifier_v1").

(** ** Worlds and requests of the examples *)

(** The clock is read at noon of 2026-11-03 and has moved on by 250
    microseconds at every further reading. *)
Definition ticking_world : World :=
  mkWorld (fun k => datetime.make 2026 11 3 12 0 0 (250 * Z.of_nat k)) 0
          (fun k => 7 * Z.of_nat k + 3) 0.

(** A classifier that answers the same category for every row. *)
Definition constant_classifier (category : Z) : Classifier := fun _ => inr category.

(** A classifier that raises on every row. *)
Definition broken_classifier : Classifier := fun _ => inl (Exception "predict failed").

Definition example_request (type : string) : Request :=
  mkRequest (Some 150%float) (Some 20%float) (Some 60%float) (Some 5%float)
            (Some (PStr type)).

(** ** The rest of the module: loading and the health route *)

(** The [try]/[except] around [pickle.load] at import time: [model] is the
    loaded object when the whole [try] block returns, and [None] when it
    raises. *)
Definition load_model (loaded : exn + Classifier) : option Classifier :=
  match loaded with
  | inr m => Some m
  | inl _ => None
  end.

(** The [/health] route. *)
Definition health (model : option Classifier) : pyval :=
  PDict
    [ ("status", PStr "ok");
      ("model_loaded", PBool (match model with Some _ => true | None => false end));
      ("aqi_range", PList [PNum (PyInt 100); PNum (PyInt 1000)]) ].

(** A request with every absent field written out. *)
Definition with_defaults (data : Request) : Request :=
  mkRequest (Some (current_pm25 data)) (Some (current_temp data))
            (Some (current_humidity data)) (Some (current_wind data))
            (Some (forecast_type data)).

(** A classifier that answers 2 while the projected pm25 stays below
    [limit] and raises from there on. *)
Definition threshold_classifier (limit : float) : Classifier :=
  fun row =>
    match row with
    | pm25 :: _ =>
        if PrimFloat.ltb pm25 limit then inr 2
        else inl (Exception "pm25 out of range")
    | [] => inl (Exception "empty row")
    end.

(** * Properties *)

(** ** Doubles: order and clamping *)

Lemma ltb_leb (x y : float) : PrimFloat.ltb x y = true -> PrimFloat.leb x y = true.
Proof.
  rewrite FloatAxioms.ltb_spec, FloatAxioms.leb_spec. unfold SFltb, SFleb.
  destruct (SFcompare (Prim2SF x) (Prim2SF y)) as [[ | | ]|]; congruence.
Qed.

Lemma leb_not_ltb_eqb (x y : float) :
  PrimFloat.leb x y = true -> PrimFloat.ltb x y = false -> PrimFloat.eqb x y = true.
Proof.
  rewrite FloatAxioms.ltb_spec, FloatAxioms.leb_spec, FloatAxioms.eqb_spec. unfold SFltb, SFleb, SFeqb.
  destruct (SFcompare (Prim2SF x) (Prim2SF y)) as [[ | | ]|]; congruence.
Qed.

Lemma SFcompare_refl (x : spec_float) :
  SFcompare x x = None \/ SFcompare x x = Some Eq.
Proof.
  destruct x as [s|s| |s m e]; simpl; auto.
  - destruct s; auto.
  - right. rewrite Z.compare_refl.
    assert (H : Pos.compare_cont Eq m m = Eq) by apply Pos.compare_cont_refl.
    rewrite H. destruct s; reflexivity.
Qed.

Lemma leb_eqb_refl (x y : float) : PrimFloat.leb x y = true -> PrimFloat.eqb y y = true.
Proof.
  rewrite FloatAxioms.leb_spec, FloatAxioms.eqb_spec. unfold SFleb, SFeqb. intros H.
  destruct (SFcompare_refl (Prim2SF y)) as [E|E]; rewrite E; [|reflexivity].
  destruct (Prim2SF x) as [ | | | ], (Prim2SF y) as [ | | | ]; simpl in *; congruence.
Qed.

Lemma at_least_lower (lo x : float) :
  PrimFloat.leb lo lo = true -> PrimFloat.leb lo (Spec.at_least lo x) = true.
Proof.
  intros Hlo. unfold Spec.at_least.
  destruct (PrimFloat.ltb lo x) eqn:E; [now apply ltb_leb | exact Hlo].
Qed.

Lemma at_most_upper (hi x : float) :
  PrimFloat.leb hi hi = true -> PrimFloat.leb (Spec.at_most hi x) hi = true.
Proof.
  intros Hhi. unfold Spec.at_most.
  destruct (PrimFloat.ltb x hi) eqn:E; [now apply ltb_leb | exact Hhi].
Qed.

Lemma within_bounds (lo hi x : float) :
  PrimFloat.ltb lo hi = true ->
  PrimFloat.leb lo (Spec.within lo hi x) = true
  /\ PrimFloat.leb (Spec.within lo hi x) hi = true.
Proof.
  intros Hlt. pose proof (ltb_leb _ _ Hlt) as Hle.
  assert (Hlo : PrimFloat.leb lo lo = true).
  { rewrite FloatAxioms.leb_spec. rewrite FloatAxioms.leb_spec in Hle. unfold SFleb in *.
    destruct (SFcompare_refl (Prim2SF lo)) as [E|E]; rewrite E; [|reflexivity].
    destruct (Prim2SF lo) as [ | | | ]; simpl in *; congruence. }
  assert (Hhi : PrimFloat.leb hi hi = true).
  { pose proof (leb_eqb_refl _ _ Hle) as H. rewrite FloatAxioms.eqb_spec in H. rewrite FloatAxioms.leb_spec.
    unfold SFeqb, SFleb in *. destruct (SFcompare _ _) as [[ | | ]|]; congruence. }
  unfold Spec.within. split; [now apply at_least_lower|].
  unfold Spec.at_least.
  destruct (PrimFloat.ltb lo (Spec.at_most hi x)) eqn:E; [now apply at_most_upper | exact Hle].
Qed.

(** Inside the bounds a value is kept, up to the equality of doubles (the
    two zeros are equal). *)
Lemma at_least_keeps (lo x : float) :
  PrimFloat.leb lo x = true -> PrimFloat.eqb (Spec.at_least lo x) x = true.
Proof.
  intros H. unfold Spec.at_least. destruct (PrimFloat.ltb lo x) eqn:E.
  - exact (leb_eqb_refl _ _ H).
  - now apply leb_not_ltb_eqb.
Qed.

(** ** The category table and the draw *)

Lemma CATEGORY_TO_AQI_lookup (category : Z) :
  default (100, 200) (CATEGORY_TO_AQI !! category) = Spec.IndexRange category.
Proof.
  assert (H : category = 0 \/ category = 1 \/ category = 2 \/ category = 3
              \/ category = 4 \/ category = 5 \/ (category < 0 \/ 5 < category)) by lia.
  destruct H as [->|[->|[->|[->|[->|[->|H]]]]]]; try reflexivity.
  unfold CATEGORY_TO_AQI. cbn [list_to_map foldr uncurry Datatypes.uncurry fst snd].
  rewrite !lookup_insert_ne by lia. rewrite lookup_empty. cbn [default].
  destruct category as [|p|p]; [lia| |reflexivity].
  destruct p as [[p|p|]|[p|p|]|]; try reflexivity; try lia;
    destruct p; try reflexivity; lia.
Qed.

Lemma IndexRange_fallback (category : Z) :
  category < 0 \/ 5 < category -> Spec.IndexRange category = (100, 200).
Proof.
  intros H. destruct category as [|p|p]; [lia| |reflexivity].
  destruct p as [[p|p|]|[p|p|]|]; try reflexivity; try lia;
    destruct p; try reflexivity; lia.
Qed.

Lemma IndexRange_sound (category : Z) :
  100 <= fst (Spec.IndexRange category)
  /\ fst (Spec.IndexRange category) < snd (Spec.IndexRange category)
  /\ snd (Spec.IndexRange category) <= 1000.
Proof.
  destruct category as [|p|p]; cbn; try lia.
  destruct p as [[p|p|]|[p|p|]|]; cbn; try lia; destruct p; cbn; lia.
Qed.

Lemma aqi_drawn_range (category : Z) (w : World) :
  fst (Spec.IndexRange category) <= aqi_drawn category w <= snd (Spec.IndexRange category).
Proof.
  unfold aqi_drawn. rewrite CATEGORY_TO_AQI_lookup.
  pose proof (IndexRange_sound category) as (H1 & H2 & H3).
  destruct (Spec.IndexRange category) as [lo hi]; cbn [fst snd] in *.
  pose proof (Z.mod_pos_bound (entropy w (rng_draws w)) (hi + 1 - lo)). lia.
Qed.

Lemma map_category_to_aqi_run (category : Z) (w : World) :
  map_category_to_aqi category w
  = (inr (aqi_drawn category w),
     mkWorld (wall_clock w) (clock_reads w) (entropy w) (S (rng_draws w))).
Proof.
  unfold map_category_to_aqi, aqi_drawn. rewrite CATEGORY_TO_AQI_lookup.
  pose proof (IndexRange_sound category) as (H1 & H2 & H3).
  destruct (Spec.IndexRange category) as [lo hi]; cbn [fst snd] in *.
  unfold bind, randint, ret.
  destruct (hi + 1 <=? lo) eqn:E; [apply Z.leb_le in E; lia | reflexivity].
Qed.

(** ** Worlds *)

Lemma advance_n_fields (n : nat) (w : World) :
  wall_clock (advance_n n w) = wall_clock w
  /\ entropy (advance_n n w) = entropy w
  /\ clock_reads (advance_n n w) = (n + clock_reads w)%nat
  /\ rng_draws (advance_n n w) = (n + rng_draws w)%nat.
Proof.
  revert w. induction n as [|n IH]; intros w; cbn [advance_n]; [easy|].
  destruct (IH (advance w)) as (H1 & H2 & H3 & H4).
  rewrite H1, H2, H3, H4. cbn. repeat split; lia.
Qed.

Lemma reading_advance_n (n : nat) (w : World) : reading (advance_n n w) 0 = reading w n.
Proof.
  unfold reading. destruct (advance_n_fields n w) as (H1 & _ & H3 & _).
  rewrite H1, H3. reflexivity.
Qed.

(** ** Ranges *)

Lemma py_range_length (stop step : Z) :
  length (py_range 0 stop step) = Z.to_nat ((stop + step - 1) / step).
Proof.
  unfold py_range. rewrite length_map, length_seq. f_equal. f_equal. lia.
Qed.

Lemma py_range_lookup (stop step : Z) (k : nat) (i : Z) :
  py_range 0 stop step !! k = Some i -> i = Z.of_nat k * step.
Proof.
  unfold py_range. rewrite list_lookup_fmap. intros H.
  destruct (seq 0 _ !! k) as [j|] eqn:E; [|discriminate].
  apply lookup_seq in E as [-> _]. cbn in H. injection H as <-. lia.
Qed.

(** ** One iteration, the loop, the route *)

Section RunProperties.

Variable np_sin np_cos : float -> float.
Variable predict : Classifier.
Variable data : Request.

Lemma features_length (i : Z) : length (features_of np_sin np_cos data i) = 4%nat.
Proof. reflexivity. Qed.

Lemma features_first (i : Z) :
  py_index (features_of np_sin np_cos data i) 0 = inr (pm25_feature np_sin data i).
Proof. reflexivity. Qed.

Lemma forecast_point_ok (i category : Z) (w : World) :
  predict (np.array (features_of np_sin np_cos data i)) = inr category ->
  forecast_point np_sin np_cos predict (current_pm25 data) (current_temp data)
    (current_humidity data) (current_wind data) (interval_hours data) i w
  = (inr (point_of (interval_hours data) i category (aqi_drawn category w)
            (reading w 0) (pm25_feature np_sin data i)),
     advance w).
Proof.
  intros H. unfold forecast_point, bind at 1. fold (features_of np_sin np_cos data i).
  unfold lift at 1. rewrite H.
  unfold bind at 1. rewrite map_category_to_aqi_run.
  unfold bind at 1, datetime_now. cbn [wall_clock clock_reads entropy rng_draws].
  unfold bind, lift. rewrite features_first. reflexivity.
Qed.

Lemma forecast_point_raises (i : Z) (e : exn) (w : World) :
  predict (np.array (features_of np_sin np_cos data i)) = inl e ->
  forecast_point np_sin np_cos predict (current_pm25 data) (current_temp data)
    (current_humidity data) (current_wind data) (interval_hours data) i w
  = (inl e, w).
Proof.
  intros H. unfold forecast_point, bind at 1. fold (features_of np_sin np_cos data i).
  unfold lift at 1. rewrite H. reflexivity.
Qed.

Lemma forecast_loop_ok (category_of : Z -> Z) (offsets : list Z) :
  (forall i, In i offsets ->
     predict (np.array (features_of np_sin np_cos data i)) = inr (category_of i)) ->
  forall (forecasts : list pyval) (w : World),
  forecast_loop np_sin np_cos predict (current_pm25 data) (current_temp data)
    (current_humidity data) (current_wind data) (interval_hours data) offsets forecasts w
  = (inr (forecasts ++ expected_points np_sin data category_of offsets w),
     advance_n (length offsets) w).
Proof.
  induction offsets as [|i rest IH]; intros Hans forecasts w.
  - cbn. rewrite app_nil_r. reflexivity.
  - cbn [forecast_loop]. unfold bind.
    rewrite (forecast_point_ok i (category_of i)) by (apply Hans; left; reflexivity).
    rewrite IH by (intros j Hj; apply Hans; right; exact Hj).
    cbn [expected_points length advance_n]. rewrite <- app_assoc. reflexivity.
Qed.

(** The loop stops at the first offset on which the classifier raises,
    with that exception. *)
Lemma forecast_loop_raises (offsets : list Z) :
  (exists i e, In i offsets
     /\ predict (np.array (features_of np_sin np_cos data i)) = inl e) ->
  forall (forecasts : list pyval) (w : World),
  exists e' w',
    forecast_loop np_sin np_cos predict (current_pm25 data) (current_temp data)
      (current_humidity data) (current_wind data) (interval_hours data) offsets forecasts w
    = (inl e', w')
    /\ exists j, In j offsets
         /\ predict (np.array (features_of np_sin np_cos data j)) = inl e'.
Proof.
  induction offsets as [|i rest IH]; intros (j & e & Hin & He) forecasts w.
  - destruct Hin.
  - cbn [forecast_loop]. unfold bind.
    destruct (predict (np.array (features_of np_sin np_cos data i))) as [e0|c] eqn:E.
    + rewrite (forecast_point_raises i e0) by exact E.
      exists e0, w. split; [reflexivity|]. exists i. split; [left; reflexivity | exact E].
    + rewrite (forecast_point_ok i c) by exact E.
      destruct Hin as [<-|Hin]; [congruence|].
      destruct (IH (ex_intro _ j (ex_intro _ e (conj Hin He)))
                  (forecasts ++ [point_of (interval_hours data) i c (aqi_drawn c w)
                                   (reading w 0) (pm25_feature np_sin data i)])
                  (advance w)) as (e' & w' & Hrun & k & Hk & Hke).
      exists e', w'. split; [exact Hrun|]. exists k. split; [right; exact Hk | exact Hke].
Qed.

Lemma forecast_unfold (w : World) :
  forecast np_sin np_cos (Some predict) data w
  = match forecast_loop np_sin np_cos predict (current_pm25 data) (current_temp data)
            (current_humidity data) (current_wind data) (interval_hours data)
            (offsets_of data) [] w with
    | (inl e, w') => (inr (PDict [("error", PStr (str e))], 400), w')
    | (inr forecasts, w') => (inr (success_body data forecasts, 200), w')
    end.
Proof.
  unfold forecast, try_except, offsets_of, hours_to_predict, interval_hours, forecast_type,
    current_pm25, current_temp, current_humidity, current_wind, success_body.
  destruct (prediction_window (default (PStr "hourly") (req_type data))) as [h s].
  cbn [fst snd]. unfold bind.
  destruct (forecast_loop _ _ _ _ _ _ _ _ _ _ _) as [[e|fs] w']; reflexivity.
Qed.

(** When the classifier answers on every offset the route succeeds, and
    its response is known point by point. *)
Lemma forecast_ok (category_of : Z -> Z) (w : World) :
  answers np_sin np_cos predict data category_of ->
  forecast np_sin np_cos (Some predict) data w
  = (inr (success_body data
            (expected_points np_sin data category_of (offsets_of data) w), 200),
     advance_n (length (offsets_of data)) w).
Proof.
  intros Hans. rewrite forecast_unfold.
  rewrite (forecast_loop_ok category_of) by exact Hans. reflexivity.
Qed.

Lemma expected_points_length (category_of : Z -> Z) (offsets : list Z) (w : World) :
  length (expected_points np_sin data category_of offsets w) = length offsets.
Proof.
  revert w. induction offsets as [|i rest IH]; intros w; cbn; [reflexivity|].
  now rewrite IH.
Qed.

Lemma expected_points_lookup (category_of : Z -> Z) (offsets : list Z) (w : World)
    (k : nat) (p : pyval) :
  expected_points np_sin data category_of offsets w !! k = Some p ->
  exists i, offsets !! k = Some i
    /\ p = point_of (interval_hours data) i (category_of i)
             (aqi_drawn (category_of i) (advance_n k w)) (reading w k)
             (pm25_feature np_sin data i).
Proof.
  revert w k. induction offsets as [|i rest IH]; intros w k H; [discriminate|].
  destruct k as [|k]; cbn in H.
  - injection H as <-. exists i. split; reflexivity.
  - apply IH in H as (j & Hj & ->). exists j. split; [exact Hj|].
    rewrite <- (reading_advance_n k (advance w)).
    change (advance_n (S k) w) with (advance_n k (advance w)).
    rewrite reading_advance_n.
    unfold reading. cbn [advance wall_clock clock_reads].
    replace (k + S (clock_reads w))%nat with (S k + clock_reads w)%nat by lia.
    reflexivity.
Qed.

End RunProperties.

(** ** Granularities *)

Lemma py_eq_str_true (v : pyval) (s : string) : py_eq_str v s = true <-> v = PStr s.
Proof.
  destruct v; cbn; try (split; [discriminate | intros H; discriminate H]).
  rewrite String.eqb_eq. split; [intros -> | intros [= ->]]; reflexivity.
Qed.

Lemma py_eq_str_false (v : pyval) (s : string) : v <> PStr s -> py_eq_str v s = false.
Proof.
  intros H. destruct (py_eq_str v s) eqn:E; [|reflexivity].
  apply py_eq_str_true in E. contradiction.
Qed.

Lemma window_hourly (data : Request) :
  forecast_type data = PStr "hourly" ->
  hours_to_predict data = 48 /\ interval_hours data = 1.
Proof. unfold hours_to_predict, interval_hours. intros ->. split; reflexivity. Qed.

Lemma window_daily (data : Request) :
  forecast_type data = PStr "daily" ->
  hours_to_predict data = 168 /\ interval_hours data = 24.
Proof. unfold hours_to_predict, interval_hours. intros ->. split; reflexivity. Qed.

Lemma window_otherwise (data : Request) :
  forecast_type data <> PStr "hourly" -> forecast_type data <> PStr "daily" ->
  hours_to_predict data = 336 /\ interval_hours data = 24.
Proof.
  unfold hours_to_predict, interval_hours, prediction_window. intros H1 H2.
  rewrite (py_eq_str_false _ _ H1), (py_eq_str_false _ _ H2). split; reflexivity.
Qed.

Lemma window_cases (data : Request) :
  (forecast_type data = PStr "hourly" /\ hours_to_predict data = 48 /\ interval_hours data = 1)
  \/ (forecast_type data <> PStr "hourly"
      /\ (hours_to_predict data = 168 \/ hours_to_predict data = 336)
      /\ interval_hours data = 24).
Proof.
  destruct (py_eq_str (forecast_type data) "hourly") eqn:E1.
  - left. apply py_eq_str_true in E1. split; [exact E1 | now apply window_hourly].
  - right. assert (H1 : forecast_type data <> PStr "hourly").
    { intros H. apply py_eq_str_true in H. congruence. }
    split; [exact H1|].
    destruct (py_eq_str (forecast_type data) "daily") eqn:E2.
    + apply py_eq_str_true in E2. destruct (window_daily _ E2) as [-> ->]. auto.
    + assert (H2 : forecast_type data <> PStr "daily").
      { intros H. apply py_eq_str_true in H. congruence. }
      destruct (window_otherwise _ H1 H2) as [-> ->]. auto.
Qed.

Lemma offsets_length (data : Request) :
  Z.of_nat (length (offsets_of data)) = hours_to_predict data / interval_hours data.
Proof.
  unfold offsets_of. rewrite py_range_length.
  destruct (window_cases data) as [(_ & -> & ->)|(_ & [-> | ->] & ->)]; reflexivity.
Qed.

(** ** The length of the series *)

(** C2.  When the classifier answers on every offset, the route succeeds
    and its series has exactly [hours_to_predict / interval_hours] points:
    48 for hourly (48 hours, step 1), 7 for daily (168 hours, step 24) and
    14 for extended (336 hours, step 24). *)
Theorem forecast_length (np_sin np_cos : float -> float) (predict : Classifier)
    (data : Request) (category_of : Z -> Z) (w : World) :
  answers np_sin np_cos predict data category_of ->
  exists forecasts w',
    forecast np_sin np_cos (Some predict) data w
      = (inr (success_body data forecasts, 200), w')
    /\ Z.of_nat (length forecasts) = hours_to_predict data / interval_hours data
    /\ (forecast_type data = PStr "hourly" ->
          hours_to_predict data = 48 /\ interval_hours data = 1
          /\ length forecasts = 48%nat)
    /\ (forecast_type data = PStr "daily" ->
          hours_to_predict data = 168 /\ interval_hours data = 24
          /\ length forecasts = 7%nat)
    /\ (forecast_type data = PStr "extended" ->
          hours_to_predict data = 336 /\ interval_hours data = 24
          /\ length forecasts = 14%nat).
Proof.
  intros Hans. eexists _, _. split; [apply forecast_ok; exact Hans|].
  rewrite expected_points_length. split; [apply offsets_length|].
  pose proof (offsets_length data) as Hlen.
  split; [|split]; intros Ht.
  - destruct (window_hourly _ Ht) as [Hh Hs]. rewrite Hh, Hs in Hlen.
    repeat split; try assumption. change (48 / 1) with 48 in Hlen. lia.
  - destruct (window_daily _ Ht) as [Hh Hs]. rewrite Hh, Hs in Hlen.
    repeat split; try assumption. change (168 / 24) with 7 in Hlen. lia.
  - assert (H1 : forecast_type data <> PStr "hourly") by (rewrite Ht; discriminate).
    assert (H2 : forecast_type data <> PStr "daily") by (rewrite Ht; discriminate).
    destruct (window_otherwise _ H1 H2) as [Hh Hs]. rewrite Hh, Hs in Hlen.
    repeat split; try assumption. change (336 / 24) with 14 in Hlen. lia.
Qed.

Lemma forecast_length_witness :
  answers taylor_sin taylor_cos (constant_classifier 2) (example_request "extended")
    (fun _ => 2)
  /\ exists forecasts w',
       forecast taylor_sin taylor_cos (Some (constant_classifier 2))
         (example_request "extended") ticking_world
         = (inr (success_body (example_request "extended") forecasts, 200), w')
       /\ length forecasts = 14%nat.
Proof.
  assert (H : answers taylor_sin taylor_cos (constant_classifier 2)
                (example_request "extended") (fun _ => 2))
    by (intros i _; reflexivity).
  split; [exact H|].
  destruct (forecast_length taylor_sin taylor_cos (constant_classifier 2)
              (example_request "extended") (fun _ => 2) ticking_world H)
    as (forecasts & w' & Hrun & _ & _ & _ & Hext).
  exists forecasts, w'. split; [exact Hrun|]. apply Hext. reflexivity.
Defined.

(** ** Unrecognised granularities *)

(** C8.  A [type] that is neither ['hourly'] nor ['daily'], whatever JSON
    value it is, takes the [else] branch: 336 hours in steps of 24, a
    successful response of 14 points that carries the value back under
    [forecast_type] and no [error]. *)
Theorem unknown_type_is_extended (np_sin np_cos : float -> float) (predict : Classifier)
    (data : Request) (category_of : Z -> Z) (w : World) (t : pyval) :
  req_type data = Some t ->
  t <> PStr "hourly" ->
  t <> PStr "daily" ->
  answers np_sin np_cos predict data category_of ->
  prediction_window t = (336, 24)
  /\ offsets_of data = py_range 0 336 24
  /\ exists forecasts w',
       forecast np_sin np_cos (Some predict) data w
         = (inr (success_body data forecasts, 200), w')
       /\ length forecasts = 14%nat
       /\ py_get (success_body data forecasts) "forecast_type" = Some t
       /\ py_get (success_body data forecasts) "forecasts" = Some (PList forecasts)
       /\ py_get (success_body data forecasts) "error" = None.
Proof.
  intros Ht H1 H2 Hans.
  assert (Hft : forecast_type data = t) by (unfold forecast_type; rewrite Ht; reflexivity).
  assert (Hw : prediction_window t = (336, 24)).
  { unfold prediction_window.
    rewrite (py_eq_str_false _ _ H1), (py_eq_str_false _ _ H2). reflexivity. }
  assert (Hoff : offsets_of data = py_range 0 336 24).
  { unfold offsets_of, hours_to_predict, interval_hours. rewrite Hft, Hw. reflexivity. }
  split; [exact Hw|]. split; [exact Hoff|].
  eexists _, _. split; [apply forecast_ok; exact Hans|].
  rewrite expected_points_length, Hoff.
  split; [reflexivity|]. split; [|split; reflexivity].
  cbn. rewrite Hft. reflexivity.
Qed.

Lemma unknown_type_is_extended_witness :
  exists forecasts w',
    forecast taylor_sin taylor_cos (Some (constant_classifier 2))
      (mkRequest None None None None (Some (PStr "weekly"))) ticking_world
      = (inr (success_body (mkRequest None None None None (Some (PStr "weekly")))
                forecasts, 200), w')
    /\ length forecasts = 14%nat
    /\ py_get (success_body (mkRequest None None None None (Some (PStr "weekly")))
                 forecasts) "forecast_type" = Some (PStr "weekly").
Proof.
  destruct (unknown_type_is_extended taylor_sin taylor_cos (constant_classifier 2)
              (mkRequest None None None None (Some (PStr "weekly"))) (fun _ => 2)
              ticking_world (PStr "weekly") eq_refl)
    as (_ & _ & forecasts & w' & Hrun & Hlen & Hty & _).
  - discriminate.
  - discriminate.
  - intros i _. reflexivity.
  - exists forecasts, w'. repeat split; assumption.
Defined.

(** ** The response object *)

Lemma forecast_success_inv (np_sin np_cos : float -> float) (model : option Classifier)
    (data : Request) (w w' : World) (body : pyval) :
  forecast np_sin np_cos model data w = (inr (body, 200), w') ->
  exists forecasts, body = success_body data forecasts.
Proof.
  destruct model as [predict|]; [|discriminate].
  rewrite forecast_unfold.
  destruct (forecast_loop _ _ _ _ _ _ _ _ _ _ _) as [[e|fs] w'']; [discriminate|].
  intros [= <- _]. exists fs. reflexivity.
Qed.

(** C10, as the code has it.  Every successful response (status 200)
    holds [status] = ['success'], the request's type under [forecast_type],
    the series under [forecasts], [aqi_range] = [100, 1000], and
    [model_used] = ['xgboost_pm25_classifier']. *)
Theorem success_response_fields (np_sin np_cos : float -> float)
    (model : option Classifier) (data : Request) (w w' : World) (body : pyval) :
  forecast np_sin np_cos model data w = (inr (body, 200), w') ->
  py_get body "status" = Some (PStr "success")
  /\ py_get body "forecast_type" = Some (forecast_type data)
  /\ (exists forecasts, py_get body "forecasts" = Some (PList forecasts))
  /\ py_get body "aqi_range" = Some (PList [PNum (PyInt 100); PNum (PyInt 1000)])
  /\ py_get body "model_used" = Some (PStr "xgboost_pm25_classifier").
Proof.
  intros H. apply forecast_success_inv in H as [forecasts ->].
  repeat split; try reflexivity. exists forecasts. reflexivity.
Qed.

Lemma success_response_fields_witness :
  exists body,
    fst (forecast taylor_sin taylor_cos (Some (constant_classifier 2))
           (example_request "daily") ticking_world) = inr (body, 200)
    /\ py_get body "status" = Some (PStr "success")
    /\ py_get body "forecast_type" = Some (PStr "daily")
    /\ py_get body "model_used" = Some (PStr "xgboost_pm25_classifier").
Proof.
  assert (H : answers taylor_sin taylor_cos (constant_classifier 2)
                (example_request "daily") (fun _ => 2))
    by (intros i _; reflexivity).
  pose proof (forecast_ok taylor_sin taylor_cos (constant_classifier 2)
                (example_request "daily") (fun _ => 2) ticking_world H) as E.
  destruct (success_response_fields _ _ _ _ _ _ _ E) as (H1 & H2 & _ & _ & H5).
  eexists. split; [rewrite E; reflexivity|]. repeat split; assumption.
Defined.

(** C10, refuted as stated: the daily example answers 200 with
    [model_used] = ['xgboost_pm25_classifier']. *)
Lemma model_used_counterexample :
  (exists body,
     fst (forecast taylor_sin taylor_cos (Some (constant_classifier 2))
            (example_request "daily") ticking_world) = inr (body, 200)
     /\ py_get body "model_used" = Some (PStr "xgboost_pm25_classifier"))
  /\ ~ model_used_is_forecast_classifier_v1.
Proof.
  assert (H : answers taylor_sin taylor_cos (constant_classifier 2)
                (example_request "daily") (fun _ => 2))
    by (intros i _; reflexivity).
  pose proof (forecast_ok taylor_sin taylor_cos (constant_classifier 2)
                (example_request "daily") (fun _ => 2) ticking_world H) as E.
  split.
  - eexists. split; [rewrite E; reflexivity | reflexivity].
  - intros Hclaim. specialize (Hclaim _ _ _ _ _ _ _ E). discriminate Hclaim.
Qed.

(** ** Category to index *)

(** C4.  Whatever the generator yields, [map_category_to_aqi] returns
    (it never raises) an integer inside the inclusive range of the table for
    its category, and inside the fallback range [100, 200] for a category
    outside 0..5. *)
Theorem map_category_to_aqi_in_range (category : Z) (w : World) :
  exists aqi w',
    map_category_to_aqi category w = (inr aqi, w')
    /\ fst (Spec.IndexRange category) <= aqi <= snd (Spec.IndexRange category)
    /\ (category = 0 -> 100 <= aqi <= 200)
    /\ (category = 1 -> 200 <= aqi <= 350)
    /\ (category = 2 -> 350 <= aqi <= 500)
    /\ (category = 3 -> 500 <= aqi <= 700)
    /\ (category = 4 -> 700 <= aqi <= 900)
    /\ (category = 5 -> 900 <= aqi <= 1000)
    /\ (category < 0 \/ 5 < category -> 100 <= aqi <= 200).
Proof.
  eexists _, _. split; [apply map_category_to_aqi_run|].
  pose proof (aqi_drawn_range category w) as H.
  split; [exact H|].
  repeat match goal with |- _ /\ _ => split end; intros Hc;
    try (subst category; cbn in H; lia).
  rewrite (IndexRange_fallback _ Hc) in H. cbn in H. lia.
Qed.

(** Every value of the range is drawn for some state of the generator. *)
Lemma map_category_to_aqi_onto (category aqi : Z) :
  fst (Spec.IndexRange category) <= aqi <= snd (Spec.IndexRange category) ->
  exists w w', map_category_to_aqi category w = (inr aqi, w').
Proof.
  intros H.
  exists (mkWorld (fun _ => 0) 0 (fun _ => aqi - fst (Spec.IndexRange category)) 0).
  eexists. rewrite map_category_to_aqi_run. f_equal. f_equal.
  unfold aqi_drawn. rewrite CATEGORY_TO_AQI_lookup.
  destruct (Spec.IndexRange category) as [lo hi]; cbn [fst snd entropy rng_draws] in *.
  rewrite Z.mod_small by lia. lia.
Qed.

(** ** Failures *)

(** C5.  Without a loaded model the route answers the error
    ['Model not loaded'] with status 500 and touches neither the clock nor
    the generator.  When the classifier raises on some offset of the
    request, the route answers one error object, with status 400 and the
    message of the exception raised first, and no [forecasts]. *)
Theorem classifier_failure_aborts (np_sin np_cos : float -> float) (data : Request)
    (w : World) :
  forecast np_sin np_cos None data w
    = (inr (PDict [("error", PStr "Model not loaded")], 500), w)
  /\ forall predict : Classifier,
       (exists i e, In i (offsets_of data)
          /\ predict (np.array (features_of np_sin np_cos data i)) = inl e) ->
       exists e' w',
         forecast np_sin np_cos (Some predict) data w
           = (inr (PDict [("error", PStr (str e'))], 400), w')
         /\ py_get (PDict [("error", PStr (str e'))]) "forecasts" = None
         /\ exists j, In j (offsets_of data)
              /\ predict (np.array (features_of np_sin np_cos data j)) = inl e'.
Proof.
  split; [reflexivity|]. intros predict Hfail.
  destruct (forecast_loop_raises np_sin np_cos predict data (offsets_of data) Hfail [] w)
    as (e' & w' & Hrun & Hj).
  exists e', w'. rewrite forecast_unfold, Hrun. repeat split. exact Hj.
Qed.

Lemma classifier_failure_aborts_witness :
  exists w',
    forecast taylor_sin taylor_cos (Some broken_classifier) (example_request "hourly")
      ticking_world
    = (inr (PDict [("error", PStr "predict failed")], 400), w').
Proof.
  destruct (proj2 (classifier_failure_aborts taylor_sin taylor_cos
                     (example_request "hourly") ticking_world) broken_classifier)
    as (e' & w' & Hrun & _ & j & _ & Hj).
  - exists 0, (Exception "predict failed"). split; [left; reflexivity | reflexivity].
  - exists w'. injection Hj as <-. exact Hrun.
Defined.

(** ** Labels *)

(** C6.  The step is 1 for the hourly type and 24 for every other one.
    With step 1 every point has an [hour] (the hour of its time, in 0..23)
    and [None] for [day] and [date]; with step 24 every point has string
    [day] and [date] labels and [None] for [hour]. *)
Theorem labels_by_granularity (np_sin np_cos : float -> float) (predict : Classifier)
    (data : Request) (category_of : Z -> Z) (w : World) :
  answers np_sin np_cos predict data category_of ->
  exists forecasts w',
    forecast np_sin np_cos (Some predict) data w
      = (inr (success_body data forecasts, 200), w')
    /\ (forecast_type data = PStr "hourly" -> interval_hours data = 1)
    /\ (forecast_type data <> PStr "hourly" -> interval_hours data = 24)
    /\ forall (k : nat) (p : pyval), forecasts !! k = Some p ->
         (interval_hours data = 1 ->
            (exists h, py_get p "hour" = Some (PNum (PyInt h)) /\ 0 <= h < 24)
            /\ py_get p "day" = Some PNone
            /\ py_get p "date" = Some PNone)
         /\ (interval_hours data = 24 ->
               py_get p "hour" = Some PNone
               /\ (exists d, py_get p "day" = Some (PStr d))
               /\ (exists d, py_get p "date" = Some (PStr d))).
Proof.
  intros Hans. eexists _, _. split; [apply forecast_ok; exact Hans|].
  split; [intros Ht; now apply window_hourly|].
  split.
  { intros Ht. destruct (window_cases data) as [(E & _)|(_ & _ & E)]; [contradiction|exact E]. }
  intros k p Hp. apply expected_points_lookup in Hp as (i & _ & ->).
  unfold point_of. split; intros Hs; rewrite Hs; cbn.
  - repeat split. eexists. split; [reflexivity|].
    unfold datetime.hour.
    pose proof (Z.mod_pos_bound (reading w k + datetime.timedelta_hours i)
                  datetime.us_per_day eq_refl) as Hm.
    split.
    + apply Z.div_pos; [lia | reflexivity].
    + apply Z.div_lt_upper_bound; [reflexivity|].
      change (datetime.us_per_hour * 24) with datetime.us_per_day. lia.
  - repeat split; eexists; reflexivity.
Qed.

Lemma labels_by_granularity_witness :
  answers taylor_sin taylor_cos (constant_classifier 2) (example_request "hourly")
    (fun _ => 2)
  /\ exists forecasts w',
       forecast taylor_sin taylor_cos (Some (constant_classifier 2))
         (example_request "hourly") ticking_world
         = (inr (success_body (example_request "hourly") forecasts, 200), w')
       /\ forall (k : nat) (p : pyval), forecasts !! k = Some p ->
            (exists h, py_get p "hour" = Some (PNum (PyInt h)) /\ 0 <= h < 24)
            /\ py_get p "day" = Some PNone
            /\ py_get p "date" = Some PNone.
Proof.
  assert (H : answers taylor_sin taylor_cos (constant_classifier 2)
                (example_request "hourly") (fun _ => 2))
    by (intros i _; reflexivity).
  split; [exact H|].
  destruct (labels_by_granularity taylor_sin taylor_cos (constant_classifier 2)
              (example_request "hourly") (fun _ => 2) ticking_world H)
    as (forecasts & w' & Hrun & _ & _ & Hlab).
  exists forecasts, w'. split; [exact Hrun|].
  intros k p Hp. apply (Hlab k p Hp). reflexivity.
Defined.

(** The fourth point of the hourly example and the second point of the
    daily one, in a world whose clock is read at noon of 2026-11-03. *)
Example hourly_point_labels :
  exists p,
    expected_points taylor_sin (example_request "hourly") (fun _ => 2)
      (offsets_of (example_request "hourly")) ticking_world !! 3%nat = Some p
    /\ py_get p "hour" = Some (PNum (PyInt 15))
    /\ py_get p "day" = Some PNone
    /\ py_get p "date" = Some PNone.
Proof.
  eexists. split; [vm_compute; reflexivity|].
  repeat split; vm_compute; reflexivity.
Qed.

Example daily_point_labels :
  exists p,
    expected_points taylor_sin (example_request "daily") (fun _ => 2)
      (offsets_of (example_request "daily")) ticking_world !! 1%nat = Some p
    /\ py_get p "hour" = Some PNone
    /\ py_get p "day" = Some (PStr "Wed")
    /\ py_get p "date" = Some (PStr "Nov 04").
Proof.
  eexists. split; [vm_compute; reflexivity|].
  repeat split; vm_compute; reflexivity.
Qed.

(** ** Categories and indices of the points *)

(** C9.  The category of every point is the integer the classifier
    returned for the features of its offset, whatever that integer is, and
    its AQI lies in [100, 1000]; for a category outside 0..5 it lies in the
    fallback range [100, 200]. *)
Theorem category_passed_through (np_sin np_cos : float -> float) (predict : Classifier)
    (data : Request) (category_of : Z -> Z) (w : World) :
  answers np_sin np_cos predict data category_of ->
  exists forecasts w',
    forecast np_sin np_cos (Some predict) data w
      = (inr (success_body data forecasts, 200), w')
    /\ forall (k : nat) (p : pyval), forecasts !! k = Some p ->
         exists i aqi,
           offsets_of data !! k = Some i
           /\ predict (np.array (features_of np_sin np_cos data i)) = inr (category_of i)
           /\ py_get p "category" = Some (PNum (PyInt (category_of i)))
           /\ py_get p "aqi" = Some (PNum (PyInt aqi))
           /\ 100 <= aqi <= 1000
           /\ (category_of i < 0 \/ 5 < category_of i -> 100 <= aqi <= 200).
Proof.
  intros Hans. eexists _, _. split; [apply forecast_ok; exact Hans|].
  intros k p Hp. apply expected_points_lookup in Hp as (i & Hi & ->).
  exists i, (aqi_drawn (category_of i) (advance_n k w)).
  pose proof (aqi_drawn_range (category_of i) (advance_n k w)) as Hr.
  pose proof (IndexRange_sound (category_of i)) as (H1 & H2 & H3).
  split; [exact Hi|]. split.
  { apply Hans. apply list_elem_of_In. eapply list_elem_of_lookup_2. exact Hi. }
  split; [reflexivity|]. split; [reflexivity|]. split; [lia|].
  intros Hc. rewrite (IndexRange_fallback _ Hc) in Hr. cbn in Hr. lia.
Qed.

Lemma category_passed_through_witness :
  answers taylor_sin taylor_cos (constant_classifier (-1)) (example_request "daily")
    (fun _ => -1)
  /\ exists forecasts w',
       forecast taylor_sin taylor_cos (Some (constant_classifier (-1)))
         (example_request "daily") ticking_world
         = (inr (success_body (example_request "daily") forecasts, 200), w')
       /\ forall (k : nat) (p : pyval), forecasts !! k = Some p ->
            exists aqi,
              py_get p "category" = Some (PNum (PyInt (-1)))
              /\ py_get p "aqi" = Some (PNum (PyInt aqi))
              /\ 100 <= aqi <= 200.
Proof.
  assert (H : answers taylor_sin taylor_cos (constant_classifier (-1))
                (example_request "daily") (fun _ => -1))
    by (intros i _; reflexivity).
  split; [exact H|].
  destruct (category_passed_through taylor_sin taylor_cos (constant_classifier (-1))
              (example_request "daily") (fun _ => -1) ticking_world H)
    as (forecasts & w' & Hrun & Hpts).
  exists forecasts, w'. split; [exact Hrun|].
  intros k p Hp. destruct (Hpts k p Hp) as (i & aqi & _ & _ & Hc & Ha & _ & Hf).
  exists aqi. split; [exact Hc|]. split; [exact Ha|]. apply Hf. left. reflexivity.
Defined.

(** ** Timestamps *)

Lemma forecast_time_step (data : Request) (w : World) (k : nat) :
  forecast_time_at data w (S k) - forecast_time_at data w k
  = datetime.timedelta_hours (interval_hours data) + (reading w (S k) - reading w k).
Proof. unfold forecast_time_at, datetime.timedelta_hours. lia. Qed.

(** C1, as the code has it.  The clock is read once per point: the [k]-th
    point is stamped with the reading of its own iteration plus [k] steps.
    Two consecutive stamps are one step apart plus the time that passed
    between their readings; they increase strictly when the clock does not
    run backwards, and they are [now + k * interval] when every reading
    equals the first one. *)
Theorem timestamps_follow_the_clock (np_sin np_cos : float -> float)
    (predict : Classifier) (data : Request) (category_of : Z -> Z) (w : World) :
  answers np_sin np_cos predict data category_of ->
  exists forecasts w',
    forecast np_sin np_cos (Some predict) data w
      = (inr (success_body data forecasts, 200), w')
    /\ clock_reads w' = (length forecasts + clock_reads w)%nat
    /\ (forall (k : nat) (p : pyval), forecasts !! k = Some p ->
          py_get p "time"
          = Some (PStr (datetime.isoformat (forecast_time_at data w k))))
    /\ (forall k : nat,
          forecast_time_at data w (S k) - forecast_time_at data w k
          = datetime.timedelta_hours (interval_hours data)
            + (reading w (S k) - reading w k))
    /\ (forall k : nat, reading w k <= reading w (S k) ->
          forecast_time_at data w k < forecast_time_at data w (S k))
    /\ ((forall k : nat, reading w k = reading w 0) ->
        forall k : nat,
          forecast_time_at data w k
          = reading w 0 + datetime.timedelta_hours (Z.of_nat k * interval_hours data)).
Proof.
  intros Hans. eexists _, _. split; [apply forecast_ok; exact Hans|].
  split.
  { rewrite expected_points_length. apply advance_n_fields. }
  split.
  { intros k p Hp. apply expected_points_lookup in Hp as (i & Hi & ->).
    apply py_range_lookup in Hi. subst i. reflexivity. }
  split; [apply forecast_time_step|].
  split.
  { intros k Hk. pose proof (forecast_time_step data w k) as Hs.
    assert (0 < datetime.timedelta_hours (interval_hours data)).
    { destruct (window_cases data) as [(_ & _ & ->)|(_ & _ & ->)]; reflexivity. }
    lia. }
  intros Hconst k. unfold forecast_time_at. rewrite Hconst. reflexivity.
Qed.

Lemma timestamps_follow_the_clock_witness :
  answers taylor_sin taylor_cos (constant_classifier 2) (example_request "daily")
    (fun _ => 2)
  /\ exists forecasts w',
       forecast taylor_sin taylor_cos (Some (constant_classifier 2))
         (example_request "daily") ticking_world
         = (inr (success_body (example_request "daily") forecasts, 200), w')
       /\ forall (k : nat) (p : pyval), forecasts !! k = Some p ->
            py_get p "time"
            = Some (PStr (datetime.isoformat
                            (forecast_time_at (example_request "daily") ticking_world k))).
Proof.
  assert (H : answers taylor_sin taylor_cos (constant_classifier 2)
                (example_request "daily") (fun _ => 2))
    by (intros i _; reflexivity).
  split; [exact H|].
  destruct (timestamps_follow_the_clock taylor_sin taylor_cos (constant_classifier 2)
              (example_request "daily") (fun _ => 2) ticking_world H)
    as (forecasts & w' & Hrun & _ & Htime & _).
  exists forecasts, w'. split; [exact Hrun | exact Htime].
Defined.

(** C1, refuted as stated.  In a world whose clock moves on by 250
    microseconds between two readings, the daily example stamps its first
    point 2026-11-03T12:00:00 and its second point one day and 250
    microseconds later, not [now + 24 hours]. *)
Lemma single_reading_counterexample :
  (exists forecasts p0 p1,
     fst (forecast taylor_sin taylor_cos (Some (constant_classifier 2))
            (example_request "daily") ticking_world)
     = inr (success_body (example_request "daily") forecasts, 200)
     /\ forecasts !! 0%nat = Some p0
     /\ forecasts !! 1%nat = Some p1
     /\ py_get p0 "time" = Some (PStr "2026-11-03T12:00:00")
     /\ py_get p1 "time" = Some (PStr "2026-11-04T12:00:00.000250")
     /\ datetime.isoformat (reading ticking_world 0 + datetime.timedelta_hours 24)
        = "2026-11-04T12:00:00")
  /\ ~ single_reading_timestamps.
Proof.
  split.
  - eexists _, _, _. split; [vm_compute; reflexivity|].
    split; [vm_compute; reflexivity|]. split; [vm_compute; reflexivity|].
    repeat split; vm_compute; reflexivity.
  - intros Hclaim.
    assert (H : answers taylor_sin taylor_cos (constant_classifier 2)
                  (example_request "daily") (fun _ => 2))
      by (intros i _; reflexivity).
    pose proof (forecast_ok taylor_sin taylor_cos (constant_classifier 2)
                  (example_request "daily") (fun _ => 2) ticking_world H) as E.
    specialize (Hclaim _ _ _ _ _ _ _ E 1%nat).
    destruct (expected_points taylor_sin (example_request "daily") (fun _ => 2)
                (offsets_of (example_request "daily")) ticking_world !! 1%nat)
      as [p|] eqn:Ep; [|vm_compute in Ep; discriminate Ep].
    specialize (Hclaim p eq_refl).
    vm_compute in Ep. injection Ep as <-.
    vm_compute in Hclaim. discriminate Hclaim.
Qed.

(** ** Feature synthesis *)

Lemma py_max_int_float (lo : Z) (x : float) :
  to_float (py_max (PyInt lo) (PyFloat x)) = Spec.at_least (Z2float lo) x.
Proof.
  unfold py_max, py_lt, Spec.at_least. cbn [to_float].
  destruct (PrimFloat.ltb (Z2float lo) x); reflexivity.
Qed.

Lemma py_max_float_float (lo x : float) :
  to_float (py_max (PyFloat lo) (PyFloat x)) = Spec.at_least lo x.
Proof.
  unfold py_max, py_lt, Spec.at_least. cbn [to_float].
  destruct (PrimFloat.ltb lo x); reflexivity.
Qed.

Lemma py_max_min_int_float (lo hi : Z) (x : float) :
  (lo <? hi) = true ->
  PrimFloat.ltb (Z2float lo) (Z2float hi) = true ->
  to_float (py_max (PyInt lo) (py_min (PyInt hi) (PyFloat x)))
  = Spec.within (Z2float lo) (Z2float hi) x.
Proof.
  intros Hz Hf. unfold Spec.within, Spec.at_most, py_min.
  replace (py_lt (PyFloat x) (PyInt hi)) with (PrimFloat.ltb x (Z2float hi))
    by reflexivity.
  destruct (PrimFloat.ltb x (Z2float hi)).
  - apply py_max_int_float.
  - unfold py_max, py_lt, Spec.at_least. rewrite Hz, Hf. reflexivity.
Qed.

(** C3.  The row handed to the classifier is the vector of section 4.1:
    four entries in the order pm25, temperature, humidity, wind, each the
    formula of the specification over the same double operations, clamped;
    the entries lie in [0, inf), [-20, 50], [0, 100] and [0.1, inf)
    whatever the inputs are.  The result is a function of the base readings
    and the offset alone: no clock, no generator. *)
Theorem generate_forecast_features_formulas (np_sin np_cos : float -> float)
    (base : Spec.EnvironmentSnapshot) (offsetHours : Z) :
  np.array (generate_forecast_features np_sin np_cos (Spec.pm25 base)
              (Spec.temperature base) (Spec.humidity base) (Spec.windSpeed base)
              offsetHours)
  = Spec.synthesize np_sin np_cos base offsetHours
  /\ exists pm25 temperature humidity wind : float,
       Spec.synthesize np_sin np_cos base offsetHours
       = [pm25; temperature; humidity; wind]
       /\ PrimFloat.leb 0 pm25 = true
       /\ PrimFloat.leb (-20) temperature = true
       /\ PrimFloat.leb temperature 50 = true
       /\ PrimFloat.leb 0 humidity = true
       /\ PrimFloat.leb humidity 100 = true
       /\ PrimFloat.leb 0.1 wind = true.
Proof.
  split.
  - unfold generate_forecast_features, Spec.synthesize, np.array,
      hour_factor, temp_cycle, wind_cycle.
    cbn [map]. rewrite py_max_int_float, py_max_float_float.
    rewrite !py_max_min_int_float by reflexivity. reflexivity.
  - unfold Spec.synthesize. eexists _, _, _, _. split; [reflexivity|].
    split; [apply at_least_lower; reflexivity|].
    split; [apply within_bounds; reflexivity|].
    split; [apply within_bounds; reflexivity|].
    split; [apply within_bounds; reflexivity|].
    split; [apply within_bounds; reflexivity|].
    apply at_least_lower; reflexivity.
Qed.

Example generate_forecast_features_at_7 :
  generate_forecast_features taylor_sin taylor_cos 150 20 60 5 7
  = [ PyFloat 176.0799973098047; PyFloat 19.223542864692213;
      PyFloat 61.552914270615574; PyFloat 5.3826834323329154 ].
Proof. vm_compute. reflexivity. Qed.

(** The clamps at work at offset 0: a reading of -5 for pm25 comes out as
    the int 0, 49 degrees plus the cycle of 3 as the int 50, and no wind as
    0.1. *)
Example generate_forecast_features_clamped :
  generate_forecast_features taylor_sin taylor_cos (-5) 49 99 0 0
  = [ PyInt 0; PyInt 50; PyFloat 93; PyFloat 0.1 ].
Proof. vm_compute. reflexivity. Qed.

(** ** The start of the horizon *)

(** C7.  With [sin 0 = 0] and [cos 0 = 1], as libm has them, the offset 0
    gives [hour_factor] = 0 and [temp_cycle] = 3 exactly; the hourly
    forecast of the example base then has 150.0 as the pm25 of its first
    point. *)
Theorem offset_zero (np_sin np_cos : float -> float) (predict : Classifier)
    (category_of : Z -> Z) (w : World) :
  np_sin 0%float = 0%float ->
  np_cos 0%float = 1%float ->
  answers np_sin np_cos predict (example_request "hourly") category_of ->
  hour_factor np_sin 0 = 0%float
  /\ temp_cycle np_cos 0 = 3%float
  /\ exists forecasts w' p0,
       forecast np_sin np_cos (Some predict) (example_request "hourly") w
         = (inr (success_body (example_request "hourly") forecasts, 200), w')
       /\ length forecasts = 48%nat
       /\ forecasts !! 0%nat = Some p0
       /\ py_get p0 "pm25" = Some (PNum (PyFloat 150)).
Proof.
  intros Hsin Hcos Hans.
  assert (Hhf : hour_factor np_sin 0 = 0%float).
  { unfold hour_factor.
    change (Z2float 0 / 12 * np.pi)%float with 0%float. rewrite Hsin. reflexivity. }
  assert (Htc : temp_cycle np_cos 0 = 3%float).
  { unfold temp_cycle.
    change (Z2float 0 / 12 * np.pi)%float with 0%float. rewrite Hcos. reflexivity. }
  split; [exact Hhf|]. split; [exact Htc|].
  eexists _, _, _. split; [apply forecast_ok; exact Hans|].
  split; [rewrite expected_points_length; reflexivity|].
  split; [reflexivity|].
  change (Some (PNum (py_round1 (pm25_feature np_sin (example_request "hourly") 0)))
          = Some (PNum (PyFloat 150))).
  unfold pm25_feature. rewrite Hhf. reflexivity.
Qed.

Lemma offset_zero_witness :
  taylor_sin 0%float = 0%float
  /\ taylor_cos 0%float = 1%float
  /\ hour_factor taylor_sin 0 = 0%float
  /\ temp_cycle taylor_cos 0 = 3%float
  /\ exists forecasts w' p0,
       forecast taylor_sin taylor_cos (Some (constant_classifier 2))
         (example_request "hourly") ticking_world
         = (inr (success_body (example_request "hourly") forecasts, 200), w')
       /\ length forecasts = 48%nat
       /\ forecasts !! 0%nat = Some p0
       /\ py_get p0 "pm25" = Some (PNum (PyFloat 150)).
Proof.
  assert (Hs : taylor_sin 0%float = 0%float) by (vm_compute; reflexivity).
  assert (Hc : taylor_cos 0%float = 1%float) by (vm_compute; reflexivity).
  split; [exact Hs|]. split; [exact Hc|].
  apply (offset_zero taylor_sin taylor_cos (constant_classifier 2) (fun _ => 2)
           ticking_world Hs Hc).
  intros i _. reflexivity.
Defined.

(** * Further properties of the route *)

(** ** Every run of the loop *)

Section LoopRuns.

Variable np_sin np_cos : float -> float.
Variable predict : Classifier.
Variable data : Request.

(** What a run of the loop tells about the classifier and does to the
    world: it stops at the first offset on which the classifier raises. *)
Lemma forecast_loop_inv (offsets : list Z) (forecasts : list pyval) (w : World) :
  match forecast_loop np_sin np_cos predict (current_pm25 data) (current_temp data)
          (current_humidity data) (current_wind data) (interval_hours data)
          offsets forecasts w with
  | (inl e, w') =>
      exists pre i post,
        offsets = pre ++ i :: post
        /\ (forall j, In j pre ->
              exists c, predict (np.array (features_of np_sin np_cos data j)) = inr c)
        /\ predict (np.array (features_of np_sin np_cos data i)) = inl e
        /\ w' = advance_n (length pre) w
  | (inr fs, w') =>
      (forall j, In j offsets ->
         exists c, predict (np.array (features_of np_sin np_cos data j)) = inr c)
      /\ w' = advance_n (length offsets) w
      /\ length fs = (length forecasts + length offsets)%nat
  end.
Proof.
  revert forecasts w. induction offsets as [|i rest IH]; intros forecasts w.
  - cbn. split; [intros j []|]. split; [reflexivity | lia].
  - cbn [forecast_loop]. unfold bind.
    destruct (predict (np.array (features_of np_sin np_cos data i))) as [e|c] eqn:E.
    + rewrite (forecast_point_raises _ _ _ _ i e) by exact E.
      exists [], i, rest. repeat split; [intros j []|exact E].
    + rewrite (forecast_point_ok _ _ _ _ i c) by exact E.
      specialize (IH (forecasts ++ [point_of (interval_hours data) i c (aqi_drawn c w)
                                      (reading w 0) (pm25_feature np_sin data i)])
                     (advance w)).
      destruct (forecast_loop _ _ _ _ _ _ _ _ rest _ _) as [[e|fs] w'].
      * destruct IH as (pre & j & post & -> & Hpre & Hj & ->).
        exists (i :: pre), j, post. repeat split; try assumption.
        intros k [<-|Hk]; [exists c; exact E | apply Hpre; exact Hk].
      * destruct IH as (Hall & -> & Hlen). repeat split.
        -- intros k [<-|Hk]; [exists c; exact E | apply Hall; exact Hk].
        -- rewrite Hlen, length_app. cbn. lia.
Qed.

(** The loop on offsets of which the first failing one is known. *)
Lemma forecast_loop_first_failure (pre post : list Z) (i : Z) (e : exn)
    (category_of : Z -> Z) :
  (forall j, In j pre ->
     predict (np.array (features_of np_sin np_cos data j)) = inr (category_of j)) ->
  predict (np.array (features_of np_sin np_cos data i)) = inl e ->
  forall (forecasts : list pyval) (w : World),
  forecast_loop np_sin np_cos predict (current_pm25 data) (current_temp data)
    (current_humidity data) (current_wind data) (interval_hours data)
    (pre ++ i :: post) forecasts w
  = (inl e, advance_n (length pre) w).
Proof.
  intros Hpre He. induction pre as [|j pre IH]; intros forecasts w.
  - cbn [app forecast_loop]. unfold bind.
    rewrite (forecast_point_raises _ _ _ _ i e) by exact He. reflexivity.
  - cbn [app forecast_loop]. unfold bind.
    rewrite (forecast_point_ok _ _ _ _ j (category_of j))
      by (apply Hpre; left; reflexivity).
    rewrite IH by (intros k Hk; apply Hpre; right; exact Hk). reflexivity.
Qed.

End LoopRuns.

(** ** Status codes *)


(** ** What a request does to the clock and the generator *)

(** X3.  A request leaves the clock and the generator as they are except
    for their counters, which move in lockstep: [n] readings and [n] draws,
    with [n] at most the number of offsets and equal to it when the answer
    is 200. *)
Theorem forecast_world (np_sin np_cos : float -> float) (model : option Classifier)
    (data : Request) (w : World) :
  exists n : nat,
    snd (forecast np_sin np_cos model data w) = advance_n n w
    /\ (n <= length (offsets_of data))%nat
    /\ wall_clock (snd (forecast np_sin np_cos model data w)) = wall_clock w
    /\ entropy (snd (forecast np_sin np_cos model data w)) = entropy w
    /\ clock_reads (snd (forecast np_sin np_cos model data w)) = (n + clock_reads w)%nat
    /\ rng_draws (snd (forecast np_sin np_cos model data w)) = (n + rng_draws w)%nat
    /\ (forall body, fst (forecast np_sin np_cos model data w) = inr (body, 200) ->
          n = length (offsets_of data)).
Proof.
  destruct model as [predict|].
  - rewrite forecast_unfold.
    pose proof (forecast_loop_inv np_sin np_cos predict data (offsets_of data) [] w) as Hinv.
    destruct (forecast_loop _ _ _ _ _ _ _ _ _ _ _) as [[e|fs] w'].
    + destruct Hinv as (pre & i & post & Hoff & _ & _ & ->).
      exists (length pre). cbn [fst snd].
      destruct (advance_n_fields (length pre) w) as (H1 & H2 & H3 & H4).
      split; [reflexivity|].
      split; [rewrite Hoff, length_app; cbn; lia|].
      repeat split; try assumption. intros body [=].
    + destruct Hinv as (_ & -> & _).
      exists (length (offsets_of data)). cbn [fst snd].
      destruct (advance_n_fields (length (offsets_of data)) w) as (H1 & H2 & H3 & H4).
      split; [reflexivity|]. split; [lia|].
      repeat split; assumption.
  - exists 0%nat. cbn. repeat split; try lia. intros body [=].
Qed.

(** ** The first failure *)

(** X2.  When the classifier answers on the offsets before [i] and raises
    [e] on [i], the answer is the error [str e] with status 400, whatever
    the classifier would do later, and the clock and the generator have
    been used once for every point built before [i]: these points are lost,
    their draws are not given back. *)
Theorem forecast_first_failure (np_sin np_cos : float -> float) (predict : Classifier)
    (data : Request) (category_of : Z -> Z) (pre post : list Z) (i : Z) (e : exn)
    (w : World) :
  offsets_of data = pre ++ i :: post ->
  (forall j, In j pre ->
     predict (np.array (features_of np_sin np_cos data j)) = inr (category_of j)) ->
  predict (np.array (features_of np_sin np_cos data i)) = inl e ->
  forecast np_sin np_cos (Some predict) data w
  = (inr (PDict [("error", PStr (str e))], 400), advance_n (length pre) w).
Proof.
  intros Hoff Hpre He. rewrite forecast_unfold, Hoff.
  rewrite (forecast_loop_first_failure np_sin np_cos predict data pre post i e category_of)
    by assumption.
  reflexivity.
Qed.

Lemma forecast_first_failure_witness :
  exists w',
    forecast taylor_sin taylor_cos (Some (threshold_classifier 160))
      (example_request "hourly") ticking_world
    = (inr (PDict [("error", PStr "pm25 out of range")], 400), w')
    /\ clock_reads w' = 2%nat
    /\ rng_draws w' = 2%nat.
Proof.
  eexists. split.
  - apply (forecast_first_failure taylor_sin taylor_cos (threshold_classifier 160)
             (example_request "hourly") (fun _ => 2) [0; 1] (py_range 3 48 1) 2
             (Exception "pm25 out of range") ticking_world).
    + vm_compute. reflexivity.
    + intros j [<-|[<-|[]]]; vm_compute; reflexivity.
    + vm_compute. reflexivity.
  - split; reflexivity.
Defined.

(** ** What does not depend on the clock and the generator *)

(** X4.  Predictions are stable across refreshes: served in two different
    worlds, the same request yields series of the same length whose points
    agree, position by position, on [category] and [pm25]; only the times,
    the labels and the drawn AQI values may differ. *)
Theorem stable_across_worlds (np_sin np_cos : float -> float) (predict : Classifier)
    (data : Request) (category_of : Z -> Z) (w1 w2 : World) :
  answers np_sin np_cos predict data category_of ->
  exists forecasts1 forecasts2 w1' w2',
    forecast np_sin np_cos (Some predict) data w1
      = (inr (success_body data forecasts1, 200), w1')
    /\ forecast np_sin np_cos (Some predict) data w2
       = (inr (success_body data forecasts2, 200), w2')
    /\ length forecasts1 = length forecasts2
    /\ forall (k : nat) (p1 p2 : pyval),
         forecasts1 !! k = Some p1 -> forecasts2 !! k = Some p2 ->
         py_get p1 "category" = py_get p2 "category"
         /\ py_get p1 "pm25" = py_get p2 "pm25"
         /\ exists c x, py_get p1 "category" = Some (PNum (PyInt c))
                        /\ py_get p1 "pm25" = Some (PNum x).
Proof.
  intros Hans. eexists _, _, _, _.
  split; [apply forecast_ok; exact Hans|]. split; [apply forecast_ok; exact Hans|].
  split; [now rewrite !expected_points_length|].
  intros k p1 p2 H1 H2.
  apply expected_points_lookup in H1 as (i1 & Hi1 & ->).
  apply expected_points_lookup in H2 as (i2 & Hi2 & ->).
  assert (i1 = i2) by congruence. subst i2.
  split; [reflexivity|]. split; [reflexivity|].
  eexists _, _. split; reflexivity.
Qed.

Lemma stable_across_worlds_witness :
  exists forecasts1 forecasts2 w1' w2',
    forecast taylor_sin taylor_cos (Some (constant_classifier 2))
      (example_request "daily") ticking_world
      = (inr (success_body (example_request "daily") forecasts1, 200), w1')
    /\ forecast taylor_sin taylor_cos (Some (constant_classifier 2))
         (example_request "daily") (advance_n 5 ticking_world)
       = (inr (success_body (example_request "daily") forecasts2, 200), w2')
    /\ length forecasts1 = length forecasts2.
Proof.
  destruct (stable_across_worlds taylor_sin taylor_cos (constant_classifier 2)
              (example_request "daily") (fun _ => 2) ticking_world
              (advance_n 5 ticking_world))
    as (f1 & f2 & w1' & w2' & H1 & H2 & Hlen & _).
  - intros i _. reflexivity.
  - exists f1, f2, w1', w2'. repeat split; assumption.
Defined.

(** ** Daily and extended *)

Lemma expected_points_app (np_sin : float -> float) (data : Request)
    (category_of : Z -> Z) (l1 l2 : list Z) (w : World) :
  expected_points np_sin data category_of (l1 ++ l2) w
  = expected_points np_sin data category_of l1 w
    ++ expected_points np_sin data category_of l2 (advance_n (length l1) w).
Proof.
  revert w. induction l1 as [|i l1 IH]; intros w; [reflexivity|].
  cbn [app expected_points length advance_n]. now rewrite IH.
Qed.

Lemma expected_points_same_readings (np_sin : float -> float) (d1 d2 : Request)
    (category_of : Z -> Z) (offsets : list Z) (w : World) :
  interval_hours d1 = interval_hours d2 ->
  current_pm25 d1 = current_pm25 d2 ->
  expected_points np_sin d1 category_of offsets w
  = expected_points np_sin d2 category_of offsets w.
Proof.
  intros Hs Hp. revert w. induction offsets as [|i rest IH]; intros w; [reflexivity|].
  cbn [expected_points]. unfold pm25_feature. now rewrite IH, Hs, Hp.
Qed.

(** X5.  Served in the same world, the daily forecast of some readings is
    the first seven points of their extended forecast (of any type that is
    neither ['hourly'] nor ['daily']). *)
Theorem daily_is_prefix_of_extended (np_sin np_cos : float -> float)
    (predict : Classifier) (pm25 temperature humidity wind_speed : option float)
    (t : pyval) (category_of : Z -> Z) (w : World) :
  t <> PStr "hourly" ->
  t <> PStr "daily" ->
  answers np_sin np_cos predict
    (mkRequest pm25 temperature humidity wind_speed (Some t)) category_of ->
  exists daily extended wd we,
    forecast np_sin np_cos (Some predict)
      (mkRequest pm25 temperature humidity wind_speed (Some (PStr "daily"))) w
      = (inr (success_body
                (mkRequest pm25 temperature humidity wind_speed (Some (PStr "daily")))
                daily, 200), wd)
    /\ forecast np_sin np_cos (Some predict)
         (mkRequest pm25 temperature humidity wind_speed (Some t)) w
       = (inr (success_body (mkRequest pm25 temperature humidity wind_speed (Some t))
                 extended, 200), we)
    /\ length daily = 7%nat
    /\ length extended = 14%nat
    /\ daily = take 7 extended.
Proof.
  intros H1 H2 Hans.
  set (dd := mkRequest pm25 temperature humidity wind_speed (Some (PStr "daily"))).
  set (de := mkRequest pm25 temperature humidity wind_speed (Some t)) in *.
  assert (Hwe : hours_to_predict de = 336 /\ interval_hours de = 24)
    by (apply window_otherwise; assumption).
  destruct Hwe as [Hhe Hse].
  assert (Hoe : offsets_of de = py_range 0 168 24 ++ py_range 168 336 24).
  { unfold offsets_of. rewrite Hhe, Hse. reflexivity. }
  assert (Hod : offsets_of dd = py_range 0 168 24) by reflexivity.
  assert (Hansd : answers np_sin np_cos predict dd category_of).
  { intros i Hi. change (features_of np_sin np_cos dd i) with (features_of np_sin np_cos de i).
    apply Hans. rewrite Hoe. apply in_or_app. left. rewrite <- Hod. exact Hi. }
  eexists _, _, _, _.
  split; [apply forecast_ok; exact Hansd|]. split; [apply forecast_ok; exact Hans|].
  rewrite !expected_points_length, Hoe, Hod.
  split; [reflexivity|]. split; [reflexivity|].
  rewrite expected_points_app.
  rewrite take_app_length' by (rewrite expected_points_length; reflexivity).
  apply expected_points_same_readings; [rewrite Hse|]; reflexivity.
Qed.

Lemma daily_is_prefix_of_extended_witness :
  exists daily extended wd we,
    forecast taylor_sin taylor_cos (Some (constant_classifier 2))
      (example_request "daily") ticking_world
      = (inr (success_body (example_request "daily") daily, 200), wd)
    /\ forecast taylor_sin taylor_cos (Some (constant_classifier 2))
         (example_request "extended") ticking_world
       = (inr (success_body (example_request "extended") extended, 200), we)
    /\ daily = take 7 extended.
Proof.
  destruct (daily_is_prefix_of_extended taylor_sin taylor_cos (constant_classifier 2)
              (Some 150%float) (Some 20%float) (Some 60%float) (Some 5%float)
              (PStr "extended") (fun _ => 2) ticking_world)
    as (daily & extended & wd & we & Hd & He & _ & _ & Hpre).
  - discriminate.
  - discriminate.
  - intros i _. reflexivity.
  - exists daily, extended, wd, we. repeat split; assumption.
Defined.

(** ** The table as a whole *)

(** X6.  Between the categories 0..5 the index is monotone: a higher
    category never gets a lower AQI than a lower category, whatever the two
    draws are. *)
Theorem aqi_monotone_in_category (c1 c2 aqi1 aqi2 : Z) (w1 w1' w2 w2' : World) :
  0 <= c1 -> c1 < c2 -> c2 <= 5 ->
  map_category_to_aqi c1 w1 = (inr aqi1, w1') ->
  map_category_to_aqi c2 w2 = (inr aqi2, w2') ->
  aqi1 <= aqi2.
Proof.
  intros H0 H12 H5. rewrite !map_category_to_aqi_run. intros [= <- _] [= <- _].
  pose proof (aqi_drawn_range c1 w1) as R1. pose proof (aqi_drawn_range c2 w2) as R2.
  assert (Hc1 : c1 = 0 \/ c1 = 1 \/ c1 = 2 \/ c1 = 3 \/ c1 = 4) by lia.
  assert (Hc2 : c2 = 1 \/ c2 = 2 \/ c2 = 3 \/ c2 = 4 \/ c2 = 5) by lia.
  destruct Hc1 as [->|[->|[->|[->| ->]]]]; destruct Hc2 as [->|[->|[->|[->| ->]]]];
    cbn in R1, R2; lia.
Qed.

Lemma aqi_monotone_in_category_witness :
  exists aqi1 aqi2 w1' w2',
    map_category_to_aqi 1 ticking_world = (inr aqi1, w1')
    /\ map_category_to_aqi 4 (advance_n 3 ticking_world) = (inr aqi2, w2')
    /\ aqi1 <= aqi2.
Proof.
  pose proof (map_category_to_aqi_run 1 ticking_world) as E1.
  pose proof (map_category_to_aqi_run 4 (advance_n 3 ticking_world)) as E2.
  eexists _, _, _, _. split; [exact E1|]. split; [exact E2|].
  apply (aqi_monotone_in_category 1 4 _ _ _ _ _ _
           ltac:(lia) ltac:(lia) ltac:(lia) E1 E2).
Defined.

(** X7.  Neighbouring ranges share their end point, so the AQI does not
    determine the category: the upper bound of the range of a category
    0..4 is drawn for that category and for the next one. *)
Theorem aqi_shared_between_neighbours (c : Z) :
  0 <= c -> c < 5 ->
  snd (Spec.IndexRange c) = fst (Spec.IndexRange (c + 1))
  /\ exists w1 w1' w2 w2',
       map_category_to_aqi c w1 = (inr (snd (Spec.IndexRange c)), w1')
       /\ map_category_to_aqi (c + 1) w2 = (inr (snd (Spec.IndexRange c)), w2').
Proof.
  intros H0 H5.
  assert (Hc : c = 0 \/ c = 1 \/ c = 2 \/ c = 3 \/ c = 4) by lia.
  assert (E : snd (Spec.IndexRange c) = fst (Spec.IndexRange (c + 1))).
  { destruct Hc as [->|[->|[->|[->| ->]]]]; reflexivity. }
  split; [exact E|].
  pose proof (IndexRange_sound c) as (A1 & A2 & A3).
  pose proof (IndexRange_sound (c + 1)) as (B1 & B2 & B3).
  destruct (map_category_to_aqi_onto c (snd (Spec.IndexRange c))) as (w1 & w1' & H1); [lia|].
  destruct (map_category_to_aqi_onto (c + 1) (snd (Spec.IndexRange c)))
    as (w2 & w2' & H2); [lia|].
  exists w1, w1', w2, w2'. split; assumption.
Qed.

Lemma aqi_shared_between_neighbours_witness :
  exists w1 w1' w2 w2',
    map_category_to_aqi 0 w1 = (inr 200, w1')
    /\ map_category_to_aqi 1 w2 = (inr 200, w2').
Proof.
  destruct (aqi_shared_between_neighbours 0) as (_ & w1 & w1' & w2 & w2' & H1 & H2);
    [lia | lia |].
  exists w1, w1', w2, w2'. split; assumption.
Defined.

(** X8.  The values [map_category_to_aqi] can return for a category are
    exactly the integers of its range, both end points included: each of
    them is drawn for some state of the generator, and nothing else is. *)
Theorem map_category_to_aqi_image (category aqi : Z) :
  (exists w w', map_category_to_aqi category w = (inr aqi, w'))
  <-> fst (Spec.IndexRange category) <= aqi <= snd (Spec.IndexRange category).
Proof.
  split.
  - intros (w & w' & H). rewrite map_category_to_aqi_run in H. injection H as <- _.
    apply aqi_drawn_range.
  - apply map_category_to_aqi_onto.
Qed.

(** ** Readings that are not numbers *)

Lemma prim_nan (x : float) : Prim2SF x = S754_nan -> x = nan.
Proof. intros H. rewrite <- (SF2Prim_Prim2SF x), H. reflexivity. Qed.

Lemma mul_nan_l (y : float) : (nan * y)%float = nan.
Proof.
  apply prim_nan. rewrite FloatAxioms.mul_spec. change (Prim2SF nan) with S754_nan.
  reflexivity.
Qed.

Lemma mul_nan_r (x : float) : (x * nan)%float = nan.
Proof.
  apply prim_nan. rewrite FloatAxioms.mul_spec. change (Prim2SF nan) with S754_nan.
  destruct (Prim2SF x); reflexivity.
Qed.

Lemma add_nan_l (y : float) : (nan + y)%float = nan.
Proof.
  apply prim_nan. rewrite FloatAxioms.add_spec. change (Prim2SF nan) with S754_nan.
  reflexivity.
Qed.

Lemma sub_nan_l (y : float) : (nan - y)%float = nan.
Proof.
  apply prim_nan. rewrite FloatAxioms.sub_spec. change (Prim2SF nan) with S754_nan.
  reflexivity.
Qed.

Lemma leb_not_nan (lo x : float) : PrimFloat.leb lo x = true -> PrimFloat.eqb x x = true.
Proof. apply leb_eqb_refl. Qed.

(** X9.  No feature is ever NaN, whatever the readings are and whatever
    [np.sin] and [np.cos] return; a reading that is NaN itself (which the
    JSON parser accepts) is replaced without notice by a bound of its
    clamp: 0 for pm25, 50 for the temperature, 100 for the humidity and 0.1
    for the wind. *)
Theorem features_never_nan (np_sin np_cos : float -> float)
    (base_pm25 base_temp base_humidity base_wind : float) (hours_ahead : Z) :
  Forall (fun x => PrimFloat.eqb x x = true)
    (np.array (generate_forecast_features np_sin np_cos base_pm25 base_temp
                 base_humidity base_wind hours_ahead))
  /\ generate_forecast_features np_sin np_cos nan base_temp base_humidity base_wind
       hours_ahead !! 0%nat = Some (PyInt 0)
  /\ generate_forecast_features np_sin np_cos base_pm25 nan base_humidity base_wind
       hours_ahead !! 1%nat = Some (PyInt 50)
  /\ generate_forecast_features np_sin np_cos base_pm25 base_temp nan base_wind
       hours_ahead !! 2%nat = Some (PyInt 100)
  /\ generate_forecast_features np_sin np_cos base_pm25 base_temp base_humidity nan
       hours_ahead !! 3%nat = Some (PyFloat 0.1).
Proof.
  split.
  - unfold generate_forecast_features, np.array. cbn [map].
    rewrite py_max_int_float, py_max_float_float.
    rewrite !py_max_min_int_float by reflexivity.
    repeat constructor.
    + eapply leb_not_nan. apply at_least_lower. reflexivity.
    + eapply leb_not_nan.
      apply (proj1 (within_bounds (Z2float (-20)) (Z2float 50) _ eq_refl)).
    + eapply leb_not_nan.
      apply (proj1 (within_bounds (Z2float 0) (Z2float 100) _ eq_refl)).
    + eapply leb_not_nan. apply at_least_lower. reflexivity.
  - unfold generate_forecast_features. cbn [lookup list_lookup].
    rewrite !mul_nan_l, !mul_nan_r, !mul_nan_l, !add_nan_l, sub_nan_l.
    repeat split; reflexivity.
Qed.

(** ** The offsets of a request *)

(** X10.  The loop starts at offset 0 and steps by the interval: the
    [k]-th offset is [k * interval_hours], every offset is below the
    horizon, and the last one is one interval before it, so the horizon
    itself is never forecast. *)
Theorem offsets_shape (data : Request) :
  offsets_of data !! 0%nat = Some 0
  /\ last (offsets_of data) = Some (hours_to_predict data - interval_hours data)
  /\ Forall (fun i => 0 <= i < hours_to_predict data) (offsets_of data)
  /\ forall (k : nat) (i : Z), offsets_of data !! k = Some i ->
       i = Z.of_nat k * interval_hours data.
Proof.
  assert (Hk : forall (k : nat) (i : Z), offsets_of data !! k = Some i ->
                 i = Z.of_nat k * interval_hours data /\ (k < length (offsets_of data))%nat).
  { intros k i H. split; [exact (py_range_lookup _ _ _ _ H)|].
    apply lookup_lt_Some in H. exact H. }
  pose proof (offsets_length data) as Hlen.
  assert (Hall : Forall (fun i => 0 <= i < hours_to_predict data) (offsets_of data)).
  { apply Forall_forall. intros i Hi.
    apply list_elem_of_lookup_1 in Hi as [k Hi].
    apply Hk in Hi as [-> Hlt].
    destruct (window_cases data) as [(_ & Hh & Hs)|(_ & [Hh|Hh] & Hs)];
      rewrite Hh, Hs in *;
      [change (48 / 1) with 48 in Hlen | change (168 / 24) with 7 in Hlen
       | change (336 / 24) with 14 in Hlen]; lia. }
  split; [|split; [|split; [exact Hall | intros k i H; apply (Hk k i H)]]].
  - unfold offsets_of.
    destruct (window_cases data) as [(_ & -> & ->)|(_ & [-> | ->] & ->)]; reflexivity.
  - unfold offsets_of.
    destruct (window_cases data) as [(_ & -> & ->)|(_ & [-> | ->] & ->)]; reflexivity.
Qed.

(** ** Health *)

(** X11.  [/health] always answers [status] = ['ok'] and tells the truth
    about the model: [model_loaded] is [False] exactly when every forecast
    request is refused with status 500, which is what happens after a
    failed load; the range it advertises is the one of the forecast
    responses. *)
Theorem health_matches_forecast (model : option Classifier) :
  py_get (health model) "status" = Some (PStr "ok")
  /\ py_get (health model) "aqi_range"
     = Some (PList [PNum (PyInt 100); PNum (PyInt 1000)])
  /\ (py_get (health model) "model_loaded" = Some (PBool false)
      \/ py_get (health model) "model_loaded" = Some (PBool true))
  /\ (py_get (health model) "model_loaded" = Some (PBool false) <->
      forall (np_sin np_cos : float -> float) (data : Request) (w : World),
        forecast np_sin np_cos model data w
        = (inr (PDict [("error", PStr "Model not loaded")], 500), w))
  /\ (forall e : exn,
        py_get (health (load_model (inl e))) "model_loaded" = Some (PBool false))
  /\ (forall m : Classifier,
        py_get (health (load_model (inr m))) "model_loaded" = Some (PBool true)).
Proof.
  split; [reflexivity|]. split; [reflexivity|].
  split; [destruct model; [right | left]; reflexivity|].
  split; [|split; reflexivity].
  destruct model as [predict|]; split.
  - discriminate.
  - intros H. specialize (H taylor_sin taylor_cos (example_request "daily") ticking_world).
    rewrite forecast_unfold in H.
    destruct (forecast_loop _ _ _ _ _ _ _ _ _ _ _) as [[e|fs] w']; discriminate H.
  - reflexivity.
  - reflexivity.
Qed.

(** ** Labels along the series *)

Lemma hour_shift (t : datetime.t) (k : Z) :
  datetime.hour (t + datetime.timedelta_hours k) = (datetime.hour t + k) mod 24.
Proof.
  assert (Halt : forall x, datetime.hour x = (x / 3600000000) mod 24).
  { intros x. unfold datetime.hour.
    change datetime.us_per_day with (3600000000 * 24).
    change datetime.us_per_hour with 3600000000.
    Z.to_euclidean_division_equations. lia. }
  rewrite !Halt. unfold datetime.timedelta_hours.
  change datetime.us_per_hour with 3600000000.
  rewrite Z.div_add by lia. rewrite Zplus_mod_idemp_l. reflexivity.
Qed.

Lemma weekday_shift (t : datetime.t) (k : Z) :
  datetime.weekday (t + datetime.timedelta_hours (k * 24))
  = (datetime.weekday t + k) mod 7.
Proof.
  unfold datetime.weekday, datetime.toordinal, datetime.timedelta_hours.
  change datetime.us_per_day with 86400000000.
  change datetime.us_per_hour with 3600000000.
  replace (k * 24 * 3600000000) with (k * 86400000000) by lia.
  rewrite Z.div_add by lia. rewrite Zplus_mod_idemp_l. f_equal. lia.
Qed.

(** X12.  Along an hourly series the [hour] label of the [k]-th point is
    the hour of its clock reading moved on by [k], wrapping at 24; along a
    series in steps of 24 hours its [day] label is the weekday of its
    reading moved on by [k] days, wrapping after Sunday. *)
Theorem labels_along_the_series (np_sin np_cos : float -> float) (predict : Classifier)
    (data : Request) (category_of : Z -> Z) (w : World) :
  answers np_sin np_cos predict data category_of ->
  exists forecasts w',
    forecast np_sin np_cos (Some predict) data w
      = (inr (success_body data forecasts, 200), w')
    /\ forall (k : nat) (p : pyval), forecasts !! k = Some p ->
         (interval_hours data = 1 ->
            py_get p "hour"
            = Some (PNum (PyInt ((datetime.hour (reading w k) + Z.of_nat k) mod 24))))
         /\ (interval_hours data = 24 ->
               py_get p "day"
               = Some (PStr (nth (Z.to_nat ((datetime.weekday (reading w k)
                                              + Z.of_nat k) mod 7))
                                 datetime._DAYNAMES ""))).
Proof.
  intros Hans. eexists _, _. split; [apply forecast_ok; exact Hans|].
  intros k p Hp. apply expected_points_lookup in Hp as (i & Hi & ->).
  apply py_range_lookup in Hi. unfold point_of.
  split; intros Hs; rewrite Hs in *; cbn.
  - subst i. rewrite Z.mul_1_r, hour_shift. reflexivity.
  - subst i. unfold datetime.strftime_a. rewrite weekday_shift. reflexivity.
Qed.

Lemma labels_along_the_series_witness :
  exists forecasts w',
    forecast taylor_sin taylor_cos (Some (constant_classifier 2))
      (example_request "hourly") ticking_world
      = (inr (success_body (example_request "hourly") forecasts, 200), w')
    /\ forall (k : nat) (p : pyval), forecasts !! k = Some p ->
         py_get p "hour"
         = Some (PNum (PyInt ((datetime.hour (reading ticking_world k) + Z.of_nat k)
                              mod 24))).
Proof.
  destruct (labels_along_the_series taylor_sin taylor_cos (constant_classifier 2)
              (example_request "hourly") (fun _ => 2) ticking_world)
    as (forecasts & w' & Hrun & Hlab).
  - intros i _. reflexivity.
  - exists forecasts, w'. split; [exact Hrun|].
    intros k p Hp. apply (Hlab k p Hp). reflexivity.
Defined.

(** ** Absent fields *)

(** X13.  An absent field behaves as its default written out: every
    request is answered as the request with 150, 20, 60, 5 and ['hourly']
    filled in for what it leaves out, and the empty object is answered as
    the hourly request of these readings. *)
Theorem absent_fields_are_defaults (np_sin np_cos : float -> float)
    (model : option Classifier) (data : Request) (w : World) :
  forecast np_sin np_cos model data w = forecast np_sin np_cos model (with_defaults data) w
  /\ with_defaults (mkRequest None None None None None) = example_request "hourly"
  /\ forecast np_sin np_cos model (mkRequest None None None None None) w
     = forecast np_sin np_cos model (example_request "hourly") w.
Proof.
  split; [|split; reflexivity].
  destruct model as [predict|]; [|reflexivity].
  rewrite !forecast_unfold. reflexivity.
Qed.

(** ** The shape of a point *)



(** ** What a point reports of its features *)

(** X16.  The [pm25] of a point is the first entry of the list computed
    for its offset, rounded to one decimal, and that entry is what the
    classifier received as the first column of its row. *)
Theorem reported_pm25_is_classified (np_sin np_cos : float -> float)
    (predict : Classifier) (data : Request) (category_of : Z -> Z) (w : World) :
  answers np_sin np_cos predict data category_of ->
  exists forecasts w',
    forecast np_sin np_cos (Some predict) data w
      = (inr (success_body data forecasts, 200), w')
    /\ forall (k : nat) (p : pyval), forecasts !! k = Some p ->
         exists (i : Z) (first : pynum),
           offsets_of data !! k = Some i
           /\ features_of np_sin np_cos data i !! 0%nat = Some first
           /\ np.array (features_of np_sin np_cos data i) !! 0%nat = Some (to_float first)
           /\ predict (np.array (features_of np_sin np_cos data i)) = inr (category_of i)
           /\ py_get p "pm25" = Some (PNum (py_round1 first)).
Proof.
  intros Hans. eexists _, _. split; [apply forecast_ok; exact Hans|].
  intros k p Hp. apply expected_points_lookup in Hp as (i & Hi & ->).
  exists i, (pm25_feature np_sin data i).
  split; [exact Hi|]. split; [reflexivity|]. split; [reflexivity|].
  split; [|reflexivity].
  apply Hans. apply list_elem_of_In. eapply list_elem_of_lookup_2. exact Hi.
Qed.

Lemma reported_pm25_is_classified_witness :
  exists forecasts w',
    forecast taylor_sin taylor_cos (Some (constant_classifier 2))
      (example_request "hourly") ticking_world
      = (inr (success_body (example_request "hourly") forecasts, 200), w')
    /\ forall (k : nat) (p : pyval), forecasts !! k = Some p ->
         exists first : pynum, py_get p "pm25" = Some (PNum (py_round1 first)).
Proof.
  destruct (reported_pm25_is_classified taylor_sin taylor_cos (constant_classifier 2)
              (example_request "hourly") (fun _ => 2) ticking_world)
    as (forecasts & w' & Hrun & Hpts).
  - intros i _. reflexivity.
  - exists forecasts, w'. split; [exact Hrun|].
    intros k p Hp. destruct (Hpts k p Hp) as (i & first & _ & _ & _ & _ & H).
    exists first. exact H.
Defined.

(** X17.  A NaN reading for pm25 is not refused: when the classifier
    answers, the request succeeds and every point reports [pm25] as the
    int 0. *)
Theorem nan_pm25_is_reported_as_zero (np_sin np_cos : float -> float)
    (predict : Classifier) (data : Request) (category_of : Z -> Z) (w : World) :
  req_pm25 data = Some nan ->
  answers np_sin np_cos predict data category_of ->
  exists forecasts w',
    forecast np_sin np_cos (Some predict) data w
      = (inr (success_body data forecasts, 200), w')
    /\ length forecasts = length (offsets_of data)
    /\ forall (k : nat) (p : pyval), forecasts !! k = Some p ->
         py_get p "pm25" = Some (PNum (PyInt 0)).
Proof.
  intros Hnan Hans. eexists _, _. split; [apply forecast_ok; exact Hans|].
  split; [apply expected_points_length|].
  intros k p Hp. apply expected_points_lookup in Hp as (i & _ & ->).
  change (Some (PNum (py_round1 (pm25_feature np_sin data i))) = Some (PNum (PyInt 0))).
  unfold pm25_feature, current_pm25. rewrite Hnan. cbn [default].
  rewrite mul_nan_l, mul_nan_r, mul_nan_l, add_nan_l. reflexivity.
Qed.

Lemma nan_pm25_is_reported_as_zero_witness :
  exists forecasts w',
    forecast taylor_sin taylor_cos (Some (constant_classifier 2))
      (mkRequest (Some nan) None None None (Some (PStr "daily"))) ticking_world
      = (inr (success_body (mkRequest (Some nan) None None None (Some (PStr "daily")))
                forecasts, 200), w')
    /\ length forecasts = 7%nat
    /\ forall (k : nat) (p : pyval), forecasts !! k = Some p ->
         py_get p "pm25" = Some (PNum (PyInt 0)).
Proof.
  destruct (nan_pm25_is_reported_as_zero taylor_sin taylor_cos (constant_classifier 2)
              (mkRequest (Some nan) None None None (Some (PStr "daily"))) (fun _ => 2)
              ticking_world eq_refl)
    as (forecasts & w' & Hrun & Hlen & Hpts).
  - intros i _. reflexivity.
  - exists forecasts, w'. split; [exact Hrun|]. split; [exact Hlen | exact Hpts].
Defined.

(** ** The first point and the current readings *)

(** X14.  With [cos 0 = 1] the first point is not computed from the
    current readings as they are: at offset 0 the temperature entry is the
    reading plus 3 and the humidity entry the reading minus 6, each then
    clamped. *)
Theorem offset_zero_shifts_readings (np_sin np_cos : float -> float)
    (base_pm25 base_temp base_humidity base_wind : float) :
  np_cos 0%float = 1%float ->
  generate_forecast_features np_sin np_cos base_pm25 base_temp base_humidity base_wind 0
    !! 1%nat
  = Some (py_max (PyInt (-20)) (py_min (PyInt 50) (PyFloat (base_temp + 3)%float)))
  /\ generate_forecast_features np_sin np_cos base_pm25 base_temp base_humidity base_wind 0
       !! 2%nat
     = Some (py_max (PyInt 0) (py_min (PyInt 100) (PyFloat (base_humidity - 6)%float))).
Proof.
  intros Hcos.
  assert (Htc : temp_cycle np_cos 0 = 3%float).
  { unfold temp_cycle.
    change (Z2float 0 / 12 * np.pi)%float with 0%float. rewrite Hcos. reflexivity. }
  unfold generate_forecast_features. cbn [lookup list_lookup]. rewrite Htc.
  split; reflexivity.
Qed.

Lemma offset_zero_shifts_readings_witness :
  taylor_cos 0%float = 1%float
  /\ generate_forecast_features taylor_sin taylor_cos 150 20 60 5 0 !! 1%nat
     = Some (PyFloat 23)
  /\ generate_forecast_features taylor_sin taylor_cos 150 20 60 5 0 !! 2%nat
     = Some (PyFloat 54).
Proof.
  assert (Hc : taylor_cos 0%float = 1%float) by (vm_compute; reflexivity).
  split; [exact Hc|].
  destruct (offset_zero_shifts_readings taylor_sin taylor_cos 150 20 60 5 Hc) as [H1 H2].
  split; [rewrite H1 | rewrite H2]; vm_compute; reflexivity.
Defined.
